(** * depsort: file classification, import extraction and dependency analysis

    A shallow embedding of the three core modules of depsort
    ([file-classifier.ts], [import-scanner.ts], [analyzer.ts]) together with
    the type declarations of [types.ts], followed by the properties of the
    classifier, of package-name resolution and of the per-package verdict. *)

From Stdlib Require Import ZArith Ascii String List Bool Lia.
From Stdlib Require Import DecimalString Permutation.
From stdpp Require Import base option list strings gmap.

Local Open Scope Z_scope.

(** Under [simpl], string concatenation unfolds on a literal left operand
    and character comparison stays folded. *)
#[local] Arguments String.append !s1 s2 : simpl nomatch.
#[local] Arguments Ascii.eqb : simpl never.

(** ** JavaScript string primitives used by the sources

    Strings are sequences of code units; every separator, prefix and pattern
    character the sources use is ASCII, so [string] carries them exactly. *)
Module Js.

(** [s.startsWith(p)] *)
Fixpoint startsWith (s p : string) {struct p} : bool :=
  match p, s with
  | EmptyString, _ => true
  | String _ _, EmptyString => false
  | String a p', String b s' => Ascii.eqb a b && startsWith s' p'
  end.

(** [s.includes(sub)] *)
Fixpoint includes (s sub : string) : bool :=
  startsWith s sub ||
  match s with
  | EmptyString => false
  | String _ s' => includes s' sub
  end.

(** [s.endsWith(suf)] *)
Fixpoint endsWith (s suf : string) : bool :=
  String.eqb s suf ||
  match s with
  | EmptyString => false
  | String _ s' => endsWith s' suf
  end.

(** [s.split(sep)] for a one-character separator: never the empty array. *)
Fixpoint split (sep : ascii) (s : string) : list string :=
  match s with
  | EmptyString => [EmptyString]
  | String c s' =>
      if Ascii.eqb c sep then EmptyString :: split sep s'
      else match split sep s' with
           | [] => [String c EmptyString]
           | p :: ps => String c p :: ps
           end
  end.

(** [parts.join(sep)] *)
Fixpoint join (sep : string) (parts : list string) : string :=
  match parts with
  | [] => EmptyString
  | [p] => p
  | p :: ps => p +:+ sep +:+ join sep ps
  end.

(** [s.replace(/\\/g, '/')] *)
Fixpoint replaceBackslashes (s : string) : string :=
  match s with
  | EmptyString => EmptyString
  | String c s' =>
      String (if Ascii.eqb c "\"%char then "/"%char else c)
             (replaceBackslashes s')
  end.

(** Template-literal rendering of a boolean. *)
Definition ofBool (b : bool) : string := if b then "true" else "false".

End Js.

(** ** Regular expressions

    The fragment of the pattern language the classifier uses: literals,
    concatenation, alternation and the optional group, matched by
    derivatives.  The flag [i] compares characters after canonicalising
    ASCII letters to upper case. *)
Module Re.

Inductive regex : Type :=
| Never
| Eps
| Chr (c : ascii)
| Cat (r1 r2 : regex)
| Alt (r1 r2 : regex)
| Opt (r : regex).

Definition canonicalize (c : ascii) : ascii :=
  let n := nat_of_ascii c in
  if (Nat.leb 97 n && Nat.leb n 122)%bool then ascii_of_nat (n - 32) else c.

Fixpoint nullable (r : regex) : bool :=
  match r with
  | Never => false
  | Eps => true
  | Chr _ => false
  | Cat r1 r2 => nullable r1 && nullable r2
  | Alt r1 r2 => nullable r1 || nullable r2
  | Opt _ => true
  end.

Fixpoint deriv (i : bool) (c : ascii) (r : regex) : regex :=
  match r with
  | Never => Never
  | Eps => Never
  | Chr d =>
      if (if i then Ascii.eqb (canonicalize c) (canonicalize d)
          else Ascii.eqb c d)
      then Eps else Never
  | Cat r1 r2 =>
      Alt (Cat (deriv i c r1) r2)
          (if nullable r1 then deriv i c r2 else Never)
  | Alt r1 r2 => Alt (deriv i c r1) (deriv i c r2)
  | Opt r1 => deriv i c r1
  end.

(** The whole of [s] matches [r]: the pattern [/^r$/]. *)
Fixpoint whole (i : bool) (r : regex) (s : string) : bool :=
  match s with
  | EmptyString => nullable r
  | String c s' => whole i (deriv i c r) s'
  end.

(** Some prefix of [s] matches [r]: the pattern [/^r/]. *)
Fixpoint atStart (i : bool) (r : regex) (s : string) : bool :=
  nullable r ||
  match s with
  | EmptyString => false
  | String c s' => atStart i (deriv i c r) s'
  end.

(** Some suffix of [s] matches [r]: the pattern [/r$/]. *)
Fixpoint atEnd (i : bool) (r : regex) (s : string) : bool :=
  whole i r s ||
  match s with
  | EmptyString => false
  | String _ s' => atEnd i r s'
  end.

Fixpoint lit (s : string) : regex :=
  match s with
  | EmptyString => Eps
  | String c s' => Cat (Chr c) (lit s')
  end.

Definition oneOf (ws : list string) : regex :=
  fold_right (fun w r => Alt (lit w) r) Never ws.

End Re.

(** ** [types.ts] *)

Record PackageJson : Type := {
  name : option string;
  version : option string;
  (** own enumerable properties, in [Object.keys] order *)
  dependencies : option (list (string * string));
  devDependencies : option (list (string * string));
  peerDependencies : option (list (string * string));
  optionalDependencies : option (list (string * string));
}.

Record ProjectConfig : Type := {
  packageJson : PackageJson;
  packageJsonPath : string;
  rootDir : string;
  sourceDirs : list string;
  testDirs : list string;
  buildDirs : list string;
  tsConfigPath : option string;
}.

Module FileClassification.
Record t : Type := {
  isProduction : bool;
  isTest : bool;
  isBuild : bool;
  isConfig : bool;
  reason : string;
}.
End FileClassification.

Module ImportInfo.
Record t : Type := {
  packageName : string;
  isTypeOnly : bool;
  filePath : string;
  line : Z;
  column : Z;
}.
End ImportInfo.

Module PackageUsage.
Record t : Type := {
  packageName : string;
  imports : list ImportInfo.t;
  usedInProduction : bool;
  usedInDev : bool;
  onlyTypeImports : bool;
  canMoveToDevDependencies : bool;
  reason : string;
}.
End PackageUsage.

Record AnalysisResult : Type := {
  packagesToMove : list PackageUsage.t;
  packagesToKeep : list PackageUsage.t;
  totalDependencies : nat;
  canMoveCount : nat;
}.

(** ** The platform's [path] module

    [path] belongs to the runtime, not to depsort; the sources are embedded
    over any implementation of the four functions they call. *)
Record PathApi : Type := {
  relative : string -> string -> string;
  basename : string -> string;
  dirname : string -> string;
  isAbsolute : string -> bool;
}.

(** The POSIX behaviour of [path] on normalized paths without a trailing
    slash (absolute ones for [relative]); used for concrete runs. *)
Module Posix.

Fixpoint dropCommon (from to : list string) : list string * list string :=
  match from, to with
  | f :: from', t :: to' =>
      if String.eqb f t then dropCommon from' to' else (from, to)
  | _, _ => (from, to)
  end.

Definition relative (from to : string) : string :=
  let '(up, down) := dropCommon (Js.split "/" from) (Js.split "/" to) in
  Js.join "/" (map (fun _ => "..") up ++ down).

Definition basename (p : string) : string :=
  List.last (Js.split "/" p) EmptyString.

Definition dirname (p : string) : string :=
  match List.removelast (Js.split "/" p) with
  | [] => "."
  | [EmptyString] => "/"
  | dirs => Js.join "/" dirs
  end.

Definition isAbsolute (p : string) : bool := Js.startsWith p "/".

Definition api : PathApi :=
  Build_PathApi relative basename dirname isAbsolute.

End Posix.

(** ** [file-classifier.ts] *)

(** [/\.(test|spec)\.(ts|tsx|js|jsx)$/i] *)
Definition testFilePattern : Re.regex :=
  Re.Cat (Re.Chr ".") (Re.Cat (Re.oneOf ["test"; "spec"])
    (Re.Cat (Re.Chr ".") (Re.oneOf ["ts"; "tsx"; "js"; "jsx"]))).

(** [/\.(test|spec)\.(ts|tsx|js|jsx)\.map$/i] *)
Definition testMapPattern : Re.regex :=
  Re.Cat testFilePattern (Re.lit ".map").

(** [/^(jest|vitest|vite|webpack|rollup|esbuild|tsup|tsx|ts-node|babel|
       eslint|prettier|\.prettierrc|\.eslintrc)
       \.(config\.)?(js|ts|json|mjs|cjs)$/i] (one line in the source) *)
Definition toolConfigPattern : Re.regex :=
  Re.Cat
    (Re.oneOf ["jest"; "vitest"; "vite"; "webpack"; "rollup"; "esbuild";
               "tsup"; "tsx"; "ts-node"; "babel"; "eslint"; "prettier";
               ".prettierrc"; ".eslintrc"])
    (Re.Cat (Re.Chr ".")
       (Re.Cat (Re.Opt (Re.lit "config."))
          (Re.oneOf ["js"; "ts"; "json"; "mjs"; "cjs"]))).

(** [/^\.(eslintrc|prettierrc|babelrc|nycrc)/i] *)
Definition dotfilePattern : Re.regex :=
  Re.Cat (Re.Chr ".")
    (Re.oneOf ["eslintrc"; "prettierrc"; "babelrc"; "nycrc"]).

(** [normalizedPath.startsWith(dir + '/') ||
     normalizedPath.startsWith('./' + dir + '/')] *)
Definition startsWithDir (normalizedPath dir : string) : bool :=
  Js.startsWith normalizedPath (dir +:+ "/") ||
  Js.startsWith normalizedPath ("./" +:+ dir +:+ "/").

(** Check if a file path is in a source directory *)
Definition isInSourceDir (normalizedPath : string) (config : ProjectConfig)
  : bool :=
  let inSomeSourceDir :=
    existsb
      (fun sourceDir =>
         if String.eqb sourceDir "." then true
         else startsWithDir normalizedPath sourceDir)
      (sourceDirs config) in
  if existsb (String.eqb ".") (sourceDirs config) then
    let pathParts := Js.split "/" normalizedPath in
    if Nat.eqb (length pathParts) 1
       || bool_decide (pathParts !! 0%nat = Some ".")
    then true
    else inSomeSourceDir
  else inSomeSourceDir.

Section Classifier.

Variable path : PathApi.

Definition normalize (filePath : string) (config : ProjectConfig) : string :=
  Js.replaceBackslashes (relative path (rootDir config) filePath).

Definition isInBuildDir (normalizedPath : string) (config : ProjectConfig)
  : bool :=
  existsb (startsWithDir normalizedPath) (buildDirs config).

Definition isInTestDir (normalizedPath dirName : string)
  (config : ProjectConfig) : bool :=
  existsb
    (fun testDir =>
       Js.includes normalizedPath ("/" +:+ testDir +:+ "/")
       || Js.startsWith normalizedPath (testDir +:+ "/")
       || String.eqb dirName testDir)
    (testDirs config).

Definition isTestFile (fileName : string) : bool :=
  Re.atEnd true testFilePattern fileName
  || Re.atEnd true testMapPattern fileName.

Definition isConfigFile (fileName : string) : bool :=
  Re.whole true toolConfigPattern fileName
  || Re.atStart true dotfilePattern fileName
  || String.eqb fileName "tsconfig.json"
  || String.eqb fileName "package.json".

(** Classify a file based on its path and project configuration *)
Definition classifyFile (filePath : string) (config : ProjectConfig)
  : FileClassification.t :=
  let normalizedPath := normalize filePath config in
  let fileName := basename path filePath in
  let dirName := dirname path normalizedPath in
  let inBuildDir := isInBuildDir normalizedPath config in
  if inBuildDir then
    {| FileClassification.isProduction := false;
       FileClassification.isTest := false;
       FileClassification.isBuild := true;
       FileClassification.isConfig := false;
       FileClassification.reason := "File is in build directory" |}
  else
  let inTestDir := isInTestDir normalizedPath dirName config in
  let testFile := isTestFile fileName in
  if inTestDir || testFile then
    {| FileClassification.isProduction := false;
       FileClassification.isTest := true;
       FileClassification.isBuild := false;
       FileClassification.isConfig := false;
       FileClassification.reason :=
         if inTestDir then "File is in test directory"
         else "File matches test pattern" |}
  else
  let configFile := isConfigFile fileName in
  if configFile && negb (isInSourceDir normalizedPath config) then
    {| FileClassification.isProduction := false;
       FileClassification.isTest := false;
       FileClassification.isBuild := false;
       FileClassification.isConfig := true;
       FileClassification.reason := "File is a configuration file" |}
  else
  let isInSource := isInSourceDir normalizedPath config in
  let isTypeDefinition := Js.endsWith fileName ".d.ts" in
  let isProduction :=
    isInSource && negb testFile && negb configFile && negb inBuildDir in
  {| FileClassification.isProduction := isProduction;
     FileClassification.isTest := inTestDir || testFile;
     FileClassification.isBuild := inBuildDir;
     FileClassification.isConfig := configFile && negb isInSource;
     FileClassification.reason :=
       if isProduction then "File is in source directory"
       else if isTypeDefinition then "File is a type definition"
       else "File classification: source=" +:+ Js.ofBool isInSource
            +:+ ", test=" +:+ Js.ofBool (testFile || inTestDir)
            +:+ ", config=" +:+ Js.ofBool configFile |}.

End Classifier.

(** ** [import-scanner.ts] *)

Module Js_array.
(** [parts[i]] where the sources read an index that is in range. *)
Definition nth (parts : list string) (i : nat) : string :=
  default EmptyString (parts !! i).
End Js_array.

(** Extract package name from import source.
    Handles scoped packages (@scope/package) and subpaths. *)
Definition extractPackageName (source : string) : string :=
  let cleanSource :=
    Js_array.nth (Js.split "#" (Js_array.nth (Js.split "?" source) 0)) 0 in
  let parts := Js.split "/" cleanSource in
  if Js.startsWith cleanSource "@" && Nat.leb 2 (length parts) then
    Js_array.nth parts 0 +:+ "/" +:+ Js_array.nth parts 1
  else
    Js_array.nth parts 0.

(** The part of the syntax tree the scanner's callback reads.  Every other
    property of a node only matters as a place where child nodes hang. *)
Inductive ImportKind : Type := KindType | KindValue.

Module Specifier.
Record t : Type := {
  (** [spec.importKind]; absent on default and namespace specifiers *)
  importKind : option ImportKind;
  (** [spec.imported?.type] *)
  importedType : option string;
}.
End Specifier.

Inductive Callee : Type :=
| CalleeIdentifier (name : string)
| CalleeImport
| CalleeMember (objectName propertyName : option string)
| CalleeOther.

Inductive Argument : Type :=
| Literal (value : option string)   (* [None]: a literal that is no string *)
| OtherArgument.

Inductive Shape : Type :=
| ImportDeclaration (source : option string) (importKind : option ImportKind)
    (specifiers : option (list Specifier.t))
| CallExpression (callee : option Callee) (arguments : list Argument)
| OtherNode.

Record Position : Type := { posLine : Z; posColumn : Z }.

#[warnings="-register-all"]
Inductive Node : Type :=
| mkNode (shape : Shape) (loc : option Position) (children : list Node).

Definition nodeShape (n : Node) : Shape :=
  match n with mkNode s _ _ => s end.

(** [node.loc?.start?.line || 0] and [node.loc?.start?.column || 0] *)
Definition nodeLine (n : Node) : Z :=
  match n with mkNode _ (Some p) _ => posLine p | mkNode _ None _ => 0 end.
Definition nodeColumn (n : Node) : Z :=
  match n with mkNode _ (Some p) _ => posColumn p | mkNode _ None _ => 0 end.

Definition isTypeKind (k : option ImportKind) : bool :=
  match k with Some KindType => true | _ => false end.

(** Check if import specifiers are type-only *)
Definition hasTypeOnlySpecifiers (specifiers : option (list Specifier.t))
  : bool :=
  match specifiers with
  | None => false
  | Some [] => false
  | Some specs =>
      forallb
        (fun spec =>
           if isTypeKind (Specifier.importKind spec) then true
           else if bool_decide (Specifier.importedType spec = Some "Identifier")
                   && isTypeKind (Specifier.importKind spec) then true
           else false)
        specs
  end.

Section Scanner.

Variable path : PathApi.

(** Check if a source string is an external package (not relative path) *)
Definition isExternalPackage (source : string) : bool :=
  negb (Js.startsWith source ".") && negb (Js.startsWith source "/")
  && negb (isAbsolute path source).

Definition record (source : string) (typeOnly : bool) (file : string)
  (node : Node) : ImportInfo.t :=
  {| ImportInfo.packageName := extractPackageName source;
     ImportInfo.isTypeOnly := typeOnly;
     ImportInfo.filePath := file;
     ImportInfo.line := nodeLine node;
     ImportInfo.column := nodeColumn node |}.

(** A string-literal first argument that names an external package. *)
Definition externalArgument (arguments : list Argument) : option string :=
  match arguments with
  | Literal (Some source) :: _ =>
      if isExternalPackage source then Some source else None
  | _ => None
  end.

(** The callback of [extractImportsFromFile]: the records one node pushes,
    in the order of the four tests. *)
Definition visit (file : string) (node : Node) : list ImportInfo.t :=
  (match nodeShape node with
   | ImportDeclaration (Some source) importKind specifiers =>
       if negb (String.eqb source EmptyString) && isExternalPackage source
       then
         let isTypeOnly :=
           isTypeKind importKind || hasTypeOnlySpecifiers specifiers in
         [record source isTypeOnly file node]
       else []
   | _ => []
   end)
  ++ (match nodeShape node with
      | CallExpression (Some (CalleeIdentifier "require")) arguments =>
          match externalArgument arguments with
          | Some source => [record source false file node]
          | None => []
          end
      | _ => []
      end)
  ++ (match nodeShape node with
      | CallExpression (Some CalleeImport) arguments =>
          match externalArgument arguments with
          | Some source => [record source false file node]
          | None => []
          end
      | _ => []
      end)
  ++ (match nodeShape node with
      | CallExpression
          (Some (CalleeMember (Some "require") (Some "resolve"))) arguments =>
          match externalArgument arguments with
          | Some source => [record source false file node]
          | None => []
          end
      | _ => []
      end).

(** Traverse AST recursively: the node first, then its children in order. *)
Fixpoint traverseAST (node : Node) (callback : Node -> list ImportInfo.t)
  : list ImportInfo.t :=
  match node with
  | mkNode _ _ children =>
      callback node
      ++ concat (map (fun child => traverseAST child callback) children)
  end.

(** [extractImportsFromFile] once the file has been parsed. *)
Definition extractImportsFromAst (ast : Node) (file : string)
  : list ImportInfo.t :=
  traverseAST ast (visit file).

End Scanner.

(** ** [analyzer.ts] *)

(** The five flags the loop of [analyzePackageUsage] updates. *)
Record Flags : Type := {
  usedInProduction : bool;
  usedInDev : bool;
  hasRuntimeInProduction : bool;
  hasTypeOnlyInProduction : bool;
  allImportsAreTypeOnly : bool;
}.

Definition initialFlags : Flags :=
  {| usedInProduction := false; usedInDev := false;
     hasRuntimeInProduction := false; hasTypeOnlyInProduction := false;
     allImportsAreTypeOnly := true |}.

Section Analyzer.

Variable path : PathApi.

(** One iteration of [for (const imp of imports)]. *)
Definition classifyImport (config : ProjectConfig) (f : Flags)
  (imp : ImportInfo.t) : Flags :=
  let fileClassification :=
    classifyFile path (ImportInfo.filePath imp) config in
  if FileClassification.isProduction fileClassification then
    if ImportInfo.isTypeOnly imp then
      {| usedInProduction := true; usedInDev := usedInDev f;
         hasRuntimeInProduction := hasRuntimeInProduction f;
         hasTypeOnlyInProduction := true;
         allImportsAreTypeOnly := allImportsAreTypeOnly f |}
    else
      {| usedInProduction := true; usedInDev := usedInDev f;
         hasRuntimeInProduction := true;
         hasTypeOnlyInProduction := hasTypeOnlyInProduction f;
         allImportsAreTypeOnly := false |}
  else if FileClassification.isTest fileClassification
          || FileClassification.isConfig fileClassification
          || FileClassification.isBuild fileClassification then
    {| usedInProduction := usedInProduction f; usedInDev := true;
       hasRuntimeInProduction := hasRuntimeInProduction f;
       hasTypeOnlyInProduction := hasTypeOnlyInProduction f;
       allImportsAreTypeOnly :=
         if negb (ImportInfo.isTypeOnly imp) then false
         else allImportsAreTypeOnly f |}
  else f.

Definition classifyImports (config : ProjectConfig)
  (imports : list ImportInfo.t) (f : Flags) : Flags :=
  fold_left (classifyImport config) imports f.

(** Determine if package can be moved to devDependencies *)
Definition decision (f : Flags) : bool * string :=
  if negb (usedInProduction f) then
    (true, "Only used in dev/test/config files")
  else if hasTypeOnlyInProduction f && negb (hasRuntimeInProduction f) then
    (true, "Only type-only imports in production code")
  else if hasRuntimeInProduction f then
    (false, "Has runtime imports in production code")
  else
    (false, "Used in production code").

(** Analyze usage of a specific package *)
Definition analyzePackageUsage (packageName : string)
  (imports : list ImportInfo.t) (config : ProjectConfig) : PackageUsage.t :=
  if Nat.eqb (length imports) 0 then
    {| PackageUsage.packageName := packageName;
       PackageUsage.imports := [];
       PackageUsage.usedInProduction := false;
       PackageUsage.usedInDev := false;
       PackageUsage.onlyTypeImports := false;
       PackageUsage.canMoveToDevDependencies := false;
       PackageUsage.reason :=
         "Package not found in imports (may be used in scripts or other ways)" |}
  else
    let f := classifyImports config imports initialFlags in
    let '(canMove, reason) := decision f in
    {| PackageUsage.packageName := packageName;
       PackageUsage.imports := imports;
       PackageUsage.usedInProduction := usedInProduction f;
       PackageUsage.usedInDev := usedInDev f;
       PackageUsage.onlyTypeImports :=
         allImportsAreTypeOnly f && Nat.ltb 0 (length imports);
       PackageUsage.canMoveToDevDependencies := canMove;
       PackageUsage.reason := reason |}.

(** One iteration of the grouping loop over a [Map<string, ImportInfo[]>]:
    create the entry when the key is new, then push onto its array. *)
Definition groupImport (importsByPackage : gmap string (list ImportInfo.t))
  (imp : ImportInfo.t) : gmap string (list ImportInfo.t) :=
  let present :=
    if bool_decide (is_Some (importsByPackage !! ImportInfo.packageName imp))
    then importsByPackage
    else <[ImportInfo.packageName imp := []]> importsByPackage in
  alter (fun group => group ++ [imp]) (ImportInfo.packageName imp) present.

Definition groupImports (imports : list ImportInfo.t)
  : gmap string (list ImportInfo.t) :=
  fold_left groupImport imports ∅.

(** [Object.keys(config.packageJson.dependencies || {})] *)
Definition declaredDependencies (config : ProjectConfig) : list string :=
  map fst (default [] (dependencies (packageJson config))).

(** The second loop of [analyzeDependencies], over any grouping. *)
Definition analyzeGroups (config : ProjectConfig)
  (importsByPackage : gmap string (list ImportInfo.t))
  : list PackageUsage.t :=
  map (fun packageName =>
         analyzePackageUsage packageName
           (default [] (importsByPackage !! packageName)) config)
      (declaredDependencies config).

Definition partitionUsages (packageUsages : list PackageUsage.t)
  (total : nat) : AnalysisResult :=
  let toMove :=
    List.filter PackageUsage.canMoveToDevDependencies packageUsages in
  let toKeep :=
    List.filter (fun pkg => negb (PackageUsage.canMoveToDevDependencies pkg))
      packageUsages in
  {| packagesToMove := toMove;
     packagesToKeep := toKeep;
     totalDependencies := total;
     canMoveCount := length toMove |}.

(** Analyze dependencies and determine which can be moved to
    devDependencies *)
Definition analyzeDependencies (config : ProjectConfig)
  (imports : list ImportInfo.t) : AnalysisResult :=
  partitionUsages (analyzeGroups config (groupImports imports))
    (length (declaredDependencies config)).

End Analyzer.

(** ** Concrete projects used in the examples *)

Definition manifest (deps : list string) : PackageJson :=
  {| name := None; version := None;
     dependencies := Some (map (fun d => (d, "^1.0.0")) deps);
     devDependencies := None; peerDependencies := None;
     optionalDependencies := None |}.

Definition project (deps src tst bld : list string) : ProjectConfig :=
  {| packageJson := manifest deps;
     packageJsonPath := "/proj/package.json"; rootDir := "/proj";
     sourceDirs := src; testDirs := tst; buildDirs := bld;
     tsConfigPath := None |}.

Definition importAt (pkg : string) (typeOnly : bool) (file : string)
  : ImportInfo.t :=
  {| ImportInfo.packageName := pkg; ImportInfo.isTypeOnly := typeOnly;
     ImportInfo.filePath := file; ImportInfo.line := 1;
     ImportInfo.column := 0 |}.

(** ** Package-name resolution as the specification words it

    Strip any query string or fragment, split on [/]; for a string starting
    with [@] the first two segments joined by [/], otherwise the first
    segment alone.  Stated apart from [extractPackageName] to be compared
    with it. *)
Fixpoint stripQueryAndFragment (s : string) : string :=
  match s with
  | EmptyString => EmptyString
  | String c s' =>
      if Ascii.eqb c "?"%char || Ascii.eqb c "#"%char then EmptyString
      else String c (stripQueryAndFragment s')
  end.

Definition packageNameBySpec (source : string) : string :=
  let segments := Js.split "/" (stripQueryAndFragment source) in
  if Js.startsWith source "@" then Js.join "/" (firstn 2 segments)
  else Js.join "/" (firstn 1 segments).

(** [s] holds no occurrence of the character [c]. *)
Fixpoint lacks (c : ascii) (s : string) : bool :=
  match s with
  | EmptyString => true
  | String d s' => negb (Ascii.eqb d c) && lacks c s'
  end.

(** The part of [s] before the first [c]. *)
Fixpoint before (c : ascii) (s : string) : string :=
  match s with
  | EmptyString => EmptyString
  | String d s' => if Ascii.eqb d c then EmptyString else String d (before c s')
  end.

(** ** Vocabulary for the analyzer's properties *)

(** The records of [imports] that name [packageName], in their order. *)
Definition recordsOf (packageName : string) (imports : list ImportInfo.t)
  : list ImportInfo.t :=
  List.filter (fun imp => String.eqb (ImportInfo.packageName imp) packageName)
    imports.

(** The record lies in a file that [classifyFile] marks as production. *)
Definition inProduction (path : PathApi) (config : ProjectConfig)
  (imp : ImportInfo.t) : bool :=
  FileClassification.isProduction
    (classifyFile path (ImportInfo.filePath imp) config).

(** The record lies in a file with none of the four flags set. *)
Definition inUnclassified (path : PathApi) (config : ProjectConfig)
  (imp : ImportInfo.t) : bool :=
  let c := classifyFile path (ImportInfo.filePath imp) config in
  negb (FileClassification.isProduction c)
  && negb (FileClassification.isTest c)
  && negb (FileClassification.isBuild c)
  && negb (FileClassification.isConfig c).

(** Combining the flags of two runs of the loop. *)
Definition mergeFlags (a b : Flags) : Flags :=
  {| usedInProduction := usedInProduction a || usedInProduction b;
     usedInDev := usedInDev a || usedInDev b;
     hasRuntimeInProduction :=
       hasRuntimeInProduction a || hasRuntimeInProduction b;
     hasTypeOnlyInProduction :=
       hasTypeOnlyInProduction a || hasTypeOnlyInProduction b;
     allImportsAreTypeOnly :=
       allImportsAreTypeOnly a && allImportsAreTypeOnly b |}.

(** Combining two groupings: the arrays of a shared key are concatenated. *)
Definition mergeGroups (m1 m2 : gmap string (list ImportInfo.t))
  : gmap string (list ImportInfo.t) :=
  union_with (fun g1 g2 => Some (g1 ++ g2)) m1 m2.

(** A group as the [Map] holds it: present only once a record was pushed. *)
Definition nonemptyGroup (group : list ImportInfo.t)
  : option (list ImportInfo.t) :=
  match group with
  | [] => None
  | _ :: _ => Some group
  end.

(** All verdicts of a result, movable ones first. *)
Definition verdicts (r : AnalysisResult) : list PackageUsage.t :=
  packagesToMove r ++ packagesToKeep r.

(** A verdict without the record list it was computed from. *)
Definition verdictFlags (u : PackageUsage.t)
  : string * bool * bool * bool * bool * string :=
  (PackageUsage.packageName u, PackageUsage.usedInProduction u,
   PackageUsage.usedInDev u, PackageUsage.onlyTypeImports u,
   PackageUsage.canMoveToDevDependencies u, PackageUsage.reason u).

(** The verdict of a package that no record names. *)
Definition notFound (packageName : string) : PackageUsage.t :=
  {| PackageUsage.packageName := packageName;
     PackageUsage.imports := [];
     PackageUsage.usedInProduction := false;
     PackageUsage.usedInDev := false;
     PackageUsage.onlyTypeImports := false;
     PackageUsage.canMoveToDevDependencies := false;
     PackageUsage.reason :=
       "Package not found in imports (may be used in scripts or other ways)" |}.

(** ** The type-only rule for import declarations as the specification
    words it: the declaration is marked type-only, or every one of its
    specifiers is.  Stated apart from [visit] to be compared with it. *)
Definition everySpecifierTypeOnly (specifiers : option (list Specifier.t))
  : bool :=
  forallb (fun spec => isTypeKind (Specifier.importKind spec))
    (default [] specifiers).

Definition typeOnlyBySpec (importKind : option ImportKind)
  (specifiers : option (list Specifier.t)) : bool :=
  isTypeKind importKind || everySpecifierTypeOnly specifiers.

Definition importNode (source : string) (importKind : option ImportKind)
  (specifiers : option (list Specifier.t)) : Node :=
  mkNode (ImportDeclaration (Some source) importKind specifiers)
    (Some {| posLine := 1; posColumn := 0 |}) [].

Definition typeSpecifier : Specifier.t :=
  {| Specifier.importKind := Some KindType;
     Specifier.importedType := Some "Identifier" |}.

Definition valueSpecifier : Specifier.t :=
  {| Specifier.importKind := Some KindValue;
     Specifier.importedType := Some "Identifier" |}.

(** ** [file-classifier.ts]: which files are analyzed *)

Definition validExtensions : list string :=
  [".ts"; ".tsx"; ".js"; ".jsx"; ".mjs"; ".cjs"].

Section Analyzed.

Variable path : PathApi.

(** [path.extname], which [PathApi] does not list. *)
Variable extname : string -> string.

(** Check if a file should be analyzed (exclude build outputs,
    node_modules, etc.) *)
Definition shouldAnalyzeFile (filePath : string) (config : ProjectConfig)
  : bool :=
  let normalizedPath := normalize path filePath config in
  if Js.includes normalizedPath "node_modules/" then false
  else if existsb (startsWithDir normalizedPath) (buildDirs config) then false
  else if Js.includes normalizedPath "coverage/" then false
  else
    let ext := extname filePath in
    if negb (existsb (String.eqb ext) validExtensions) then false
    else true.

End Analyzed.

(** The POSIX [path.extname] on paths whose base name is not [..]: from the
    last dot of the base name, a leading dot not counted. *)
Fixpoint fromLastDot (s : string) : option string :=
  match s with
  | EmptyString => None
  | String c s' =>
      match fromLastDot s' with
      | Some ext => Some ext
      | None => if Ascii.eqb c "." then Some s else None
      end
  end.

Definition posixExtname (p : string) : string :=
  match Posix.basename p with
  | EmptyString => EmptyString
  | String _ rest => default EmptyString (fromLastDot rest)
  end.

(** The endings [isTestFile] looks for, in lower case. *)
Definition testSuffixes : list string :=
  [".test.ts"; ".test.tsx"; ".test.js"; ".test.jsx";
   ".spec.ts"; ".spec.tsx"; ".spec.js"; ".spec.jsx";
   ".test.ts.map"; ".test.tsx.map"; ".test.js.map"; ".test.jsx.map";
   ".spec.ts.map"; ".spec.tsx.map"; ".spec.js.map"; ".spec.jsx.map"].

(** A file name as the flag [i] reads it. *)
Fixpoint upperCase (s : string) : string :=
  match s with
  | EmptyString => EmptyString
  | String c s' => String (Re.canonicalize c) (upperCase s')
  end.

(** How many of the four flags a classification sets. *)
Definition flagCount (c : FileClassification.t) : nat :=
  Nat.b2n (FileClassification.isProduction c)
  + Nat.b2n (FileClassification.isTest c)
  + Nat.b2n (FileClassification.isBuild c)
  + Nat.b2n (FileClassification.isConfig c).

(** ** [import-scanner.ts]: vocabulary for the callback *)

(** The callee is one of the three call shapes the callback records:
    [require], [import] and [require.resolve]. *)
Definition recordedCallee (callee : option Callee) : bool :=
  match callee with
  | Some (CalleeIdentifier name) => String.eqb name "require"
  | Some CalleeImport => true
  | Some (CalleeMember (Some objectName) (Some propertyName)) =>
      String.eqb objectName "require" && String.eqb propertyName "resolve"
  | _ => false
  end.

(** The nodes of a tree, a node before its children. *)
Fixpoint preorder (node : Node) : list Node :=
  match node with
  | mkNode _ _ children => node :: concat (map preorder children)
  end.

(** The record lies in a file flagged as test, configuration or build
    output: the second test of the analyzer's loop. *)
Definition inDev (path : PathApi) (config : ProjectConfig)
  (imp : ImportInfo.t) : bool :=
  let c := classifyFile path (ImportInfo.filePath imp) config in
  FileClassification.isTest c || FileClassification.isConfig c
  || FileClassification.isBuild c.

(** The record names a declared dependency. *)
Definition namesDeclared (config : ProjectConfig) (imp : ImportInfo.t)
  : bool :=
  existsb (String.eqb (ImportInfo.packageName imp))
    (declaredDependencies config).

(** ** [analyzer.ts]: the detailed reason *)

(** Template-literal rendering of a count. *)
Definition showCount (n : nat) : string :=
  NilEmpty.string_of_uint (Nat.to_uint n).

(** Get a detailed reason string for why a package can or cannot be moved *)
Definition getDetailedReason (usage : PackageUsage.t) : string :=
  if Nat.eqb (length (PackageUsage.imports usage)) 0 then
    PackageUsage.reason usage
  else
    let productionImports :=
      List.filter (fun _ => true) (PackageUsage.imports usage) in
    let typeOnlyCount :=
      length (List.filter ImportInfo.isTypeOnly (PackageUsage.imports usage))
    in
    let runtimeCount :=
      (length (PackageUsage.imports usage) - typeOnlyCount)%nat in
    let parts :=
      (if PackageUsage.usedInProduction usage then
         ["used in production (" +:+ showCount (length productionImports)
          +:+ " imports)"]
       else [])
      ++ (if PackageUsage.usedInDev usage then ["used in dev/test files"]
          else [])
      ++ (if Nat.ltb 0 typeOnlyCount then
            [showCount typeOnlyCount +:+ " type-only import(s)"]
          else [])
      ++ (if Nat.ltb 0 runtimeCount then
            [showCount runtimeCount +:+ " runtime import(s)"]
          else []) in
    PackageUsage.reason usage +:+ " - " +:+ Js.join ", " parts.

(** ** [reporter.ts]: the object [generateJsonReport] serializes *)

Record JsonSummary : Type := {
  summaryTotalDependencies : nat;
  summaryCanMoveCount : nat;
  keepCount : nat;
}.

Record JsonImport : Type := {
  jsonFilePath : string;
  jsonLine : Z;
  jsonColumn : Z;
  jsonIsTypeOnly : bool;
}.

Record JsonPackage : Type := {
  jsonPackageName : string;
  jsonReason : string;
  jsonUsedInProduction : bool;
  jsonUsedInDev : bool;
  jsonOnlyTypeImports : bool;
  importCount : nat;
  typeOnlyImportCount : nat;
  runtimeImportCount : nat;
  (** present on the entries of [packagesToMove] only *)
  jsonImports : option (list JsonImport);
}.

Record JsonResult : Type := {
  summary : JsonSummary;
  jsonPackagesToMove : list JsonPackage;
  jsonPackagesToKeep : list JsonPackage;
}.

Definition jsonPackage (withImports : bool) (pkg : PackageUsage.t)
  : JsonPackage :=
  {| jsonPackageName := PackageUsage.packageName pkg;
     jsonReason := PackageUsage.reason pkg;
     jsonUsedInProduction := PackageUsage.usedInProduction pkg;
     jsonUsedInDev := PackageUsage.usedInDev pkg;
     jsonOnlyTypeImports := PackageUsage.onlyTypeImports pkg;
     importCount := length (PackageUsage.imports pkg);
     typeOnlyImportCount :=
       length (List.filter ImportInfo.isTypeOnly (PackageUsage.imports pkg));
     runtimeImportCount :=
       length (List.filter (fun i => negb (ImportInfo.isTypeOnly i))
                 (PackageUsage.imports pkg));
     jsonImports :=
       if withImports then
         Some (map (fun imp =>
                      {| jsonFilePath := ImportInfo.filePath imp;
                         jsonLine := ImportInfo.line imp;
                         jsonColumn := ImportInfo.column imp;
                         jsonIsTypeOnly := ImportInfo.isTypeOnly imp |})
                 (PackageUsage.imports pkg))
       else None |}.

(** The value of [jsonResult] in [generateJsonReport], before
    [JSON.stringify]. *)
Definition jsonResult (result : AnalysisResult) : JsonResult :=
  {| summary :=
       {| summaryTotalDependencies := totalDependencies result;
          summaryCanMoveCount := canMoveCount result;
          keepCount := length (packagesToKeep result) |};
     jsonPackagesToMove := map (jsonPackage true) (packagesToMove result);
     jsonPackagesToKeep := map (jsonPackage false) (packagesToKeep result) |}.

(** ** [package-json.ts] *)

Section Detect.

(** [fs.existsSync(p) && fs.statSync(p).isDirectory()] at
    [p = path.join(rootDir, dir)], as a function of [dir]. *)
Variable isDirectory : string -> bool.

(** [fs.readdirSync(rootDir)] *)
Variable rootFiles : list string.

(** [/\.(ts|tsx|js|jsx)$/] *)
Definition sourceFilePattern : Re.regex :=
  Re.Cat (Re.Chr ".") (Re.oneOf ["ts"; "tsx"; "js"; "jsx"]).

(** The loop shared by the three detectors. *)
Definition detectDirs (commonDirs : list string) : list string :=
  List.filter isDirectory commonDirs.

(** The test on the files of the root directory:
    [/\.(ts|tsx|js|jsx)$/.test(file) && !file.includes('.test') &&
     !file.includes('.spec')] *)
Definition isRootSourceFile (file : string) : bool :=
  Re.atEnd false sourceFilePattern file
  && negb (Js.includes file ".test")
  && negb (Js.includes file ".spec").

(** Detect source directories (src, lib, source, etc.) *)
Definition detectSourceDirs : list string :=
  let commonDirs := ["src"; "lib"; "source"; "app"; "source"] in
  let detected := detectDirs commonDirs in
  let detected :=
    if Nat.eqb (length detected) 0 then
      let hasSourceFiles := existsb isRootSourceFile rootFiles in
      if hasSourceFiles then detected ++ ["."] else detected
    else detected in
  if Nat.ltb 0 (length detected) then detected else ["src"].

(** Detect test directories (__tests__, tests, test, spec, etc.) *)
Definition detectTestDirs : list string :=
  detectDirs ["__tests__"; "tests"; "test"; "spec"; "__spec__"].

(** Detect build/output directories (dist, build, out, .next, etc.) *)
Definition detectBuildDirs : list string :=
  detectDirs
    ["dist"; "build"; "out"; ".next"; ".nuxt"; "coverage"; "node_modules"].

End Detect.

(** The property names every object inherits from [Object.prototype]; a
    lookup of one of them on a copied object does not behave as a lookup in
    a map. *)
Definition objectPrototypeNames : list string :=
  ["constructor"; "__defineGetter__"; "__defineSetter__"; "hasOwnProperty";
   "__lookupGetter__"; "__lookupSetter__"; "isPrototypeOf";
   "propertyIsEnumerable"; "toString"; "valueOf"; "__proto__";
   "toLocaleString"].

(** The copy [{ ...(o || {}) }] of a dependency object, used as a map. *)
Definition copyObject (o : option (list (string * string)))
  : gmap string string :=
  list_to_map (default [] o).

(** The state of the loop of [movePackagesToDevDependencies]. *)
Record MoveState : Type := {
  stDependencies : gmap string string;
  stDevDependencies : gmap string string;
  stMoved : list (string * string);
}.

(** One iteration; [None] when [packageName] is a property name of
    [Object.prototype], which this embedding does not follow. *)
Definition movePackage (st : MoveState) (packageName : string)
  : option MoveState :=
  if existsb (String.eqb packageName) objectPrototypeNames then None
  else
    match stDependencies st !! packageName with
    | None => Some st
    | Some version =>
        if String.eqb version EmptyString then Some st
        else
          Some {| stDependencies := delete packageName (stDependencies st);
                  stDevDependencies :=
                    <[packageName := version]> (stDevDependencies st);
                  stMoved := stMoved st ++ [(packageName, version)] |}
    end.

Fixpoint movePackages (st : MoveState) (packagesToMove : list string)
  : option MoveState :=
  match packagesToMove with
  | [] => Some st
  | packageName :: rest =>
      match movePackage st packageName with
      | Some st' => movePackages st' rest
      | None => None
      end
  end.

(** What [movePackagesToDevDependencies] returns: the two dependency
    fields of [updated] (every other field is the one of [packageJson]) and
    the list [moved]. *)
Record MoveResult : Type := {
  (** [None]: the field was deleted *)
  updatedDependencies : option (gmap string string);
  updatedDevDependencies : gmap string string;
  moved : list (string * string);
}.

(** Move packages from dependencies to devDependencies *)
Definition movePackagesToDevDependencies (packageJson : PackageJson)
  (packagesToMove : list string) : option MoveResult :=
  let start :=
    {| stDependencies := copyObject (dependencies packageJson);
       stDevDependencies := copyObject (devDependencies packageJson);
       stMoved := [] |} in
  match movePackages start packagesToMove with
  | None => None
  | Some st =>
      Some {| updatedDependencies :=
                if Nat.ltb 0 (size (stDependencies st))
                then Some (stDependencies st) else None;
              updatedDevDependencies := stDevDependencies st;
              moved := stMoved st |}
  end.

(** The names a run of the loop is followed on. *)
Definition followed (packagesToMove : list string) : Prop :=
  Forall (fun packageName => ~ In packageName objectPrototypeNames)
    packagesToMove.

(** The entry [k] of the dependencies is one that the loop moves: [k] is
    listed and its version is a non-empty string. *)
Definition movable (deps : gmap string string) (packagesToMove : list string)
  (k : string) : bool :=
  existsb (String.eqb k) packagesToMove
  && match deps !! k with
     | Some version => negb (String.eqb version EmptyString)
     | None => false
     end.

(** ** "Under a source directory" as the specification words it

    The path falls under a configured source directory, where under the
    root entry [.] are the paths without a subdirectory component.  Stated
    apart from [isInSourceDir] to be compared with it. *)
Definition underSourceBySpec (normalizedPath : string)
  (config : ProjectConfig) : bool :=
  existsb
    (fun sourceDir =>
       if String.eqb sourceDir "." then lacks "/" normalizedPath
       else startsWithDir normalizedPath sourceDir)
    (sourceDirs config).

(** * Properties *)

(** ** Strings *)

Lemma startsWith_app (p rest : string) : Js.startsWith (p +:+ rest) p = true.
Proof.
  induction p as [|a p IH]; simpl; [reflexivity|].
  rewrite Ascii.eqb_refl. exact IH.
Qed.

Lemma append_assoc (a b c : string) : (a +:+ b) +:+ c = a +:+ b +:+ c.
Proof. induction a as [|x a IH]; simpl; [reflexivity|]. f_equal. exact IH. Qed.

Lemma split_nonempty (sep : ascii) (s : string) : Js.split sep s <> [].
Proof.
  induction s as [|c s IH]; simpl; [discriminate|].
  destruct (Ascii.eqb c sep); [discriminate|].
  destruct (Js.split sep s); discriminate.
Qed.

(** ** The classifier *)

Lemma existsb_In_true {A} (f : A -> bool) (l : list A) (x : A) :
  In x l -> f x = true -> existsb f l = true.
Proof. intros Hin Hf. apply existsb_exists. exists x. split; assumption. Qed.

(** What [isInSourceDir] decides: some configured source directory is the
    root entry, or is a leading directory of the path. *)
Lemma isInSourceDir_spec (normalizedPath : string) (config : ProjectConfig) :
  isInSourceDir normalizedPath config = true <->
  exists sourceDir, In sourceDir (sourceDirs config) /\
    (sourceDir = "." \/ startsWithDir normalizedPath sourceDir = true).
Proof.
  unfold isInSourceDir. split.
  - intros H.
    destruct (existsb (String.eqb ".") (sourceDirs config)) eqn:Hroot.
    + apply existsb_exists in Hroot as (d & Hd & He).
      apply String.eqb_eq in He. subst d. exists ".". auto.
    + apply existsb_exists in H as (d & Hd & He). exists d. split; [exact Hd|].
      destruct (String.eqb d ".") eqn:E;
        [left; now apply String.eqb_eq|now right].
  - intros (d & Hd & Hcase).
    assert (Hsome : existsb
      (fun sourceDir => if String.eqb sourceDir "." then true
                        else startsWithDir normalizedPath sourceDir)
      (sourceDirs config) = true).
    { apply existsb_In_true with d; [exact Hd|].
      destruct Hcase as [-> | Hs]; [reflexivity|].
      rewrite Hs. now destruct (String.eqb d "."). }
    rewrite Hsome.
    now repeat match goal with
               | |- context [if ?b then _ else _] => destruct b
               end.
Qed.

(** With the root entry configured every path is in a source directory:
    the test on the number of path parts decides nothing. *)
Lemma isInSourceDir_root_entry (normalizedPath : string)
  (config : ProjectConfig) :
  In "." (sourceDirs config) -> isInSourceDir normalizedPath config = true.
Proof. intros H. apply isInSourceDir_spec. exists ".". auto. Qed.


(** A production file is in a source directory for [isInSourceDir] and
    carries no other flag. *)
Lemma production_in_source_and_unflagged (path : PathApi) (filePath : string)
  (config : ProjectConfig) :
  FileClassification.isProduction (classifyFile path filePath config) = true ->
  isInSourceDir (normalize path filePath config) config = true
  /\ FileClassification.isTest (classifyFile path filePath config) = false
  /\ FileClassification.isBuild (classifyFile path filePath config) = false
  /\ FileClassification.isConfig (classifyFile path filePath config) = false.
Proof.
  unfold classifyFile.
  destruct (isInBuildDir _ config); simpl; [discriminate|].
  destruct (isInTestDir _ _ config); simpl; [discriminate|].
  destruct (isTestFile _); simpl; [discriminate|].
  destruct (isConfigFile _), (isInSourceDir _ config); simpl;
    try discriminate; auto.
Qed.

(** Where [isInSourceDir] and the specification's rule part: only at paths
    with a directory component, through the root entry. *)
Lemma isInSourceDir_or_spec (normalizedPath : string)
  (config : ProjectConfig) :
  isInSourceDir normalizedPath config = true ->
  underSourceBySpec normalizedPath config = true
  \/ (In "." (sourceDirs config) /\ lacks "/" normalizedPath = false).
Proof.
  intros H. apply isInSourceDir_spec in H as (d & Hd & Hcase).
  assert (Hroot : In "." (sourceDirs config) ->
    underSourceBySpec normalizedPath config = true
    \/ (In "." (sourceDirs config) /\ lacks "/" normalizedPath = false)).
  { intros Hin. destruct (lacks "/" normalizedPath) eqn:E; [left|now right].
    apply existsb_In_true with "."; [exact Hin|exact E]. }
  destruct Hcase as [-> | Hs]; [now apply Hroot|].
  destruct (String.eqb_spec d ".") as [-> | Hne]; [now apply Hroot|].
  left. apply existsb_In_true with d; [exact Hd|].
  apply String.eqb_neq in Hne. now rewrite Hne.
Qed.

(** C5: with ['.'] as the only source directory [classifyFile] reports
    [isProduction] for [utils/helper.ts] and for a file outside the root,
    [../other/x.ts]: paths with a directory component, which the
    specification's rule for the root entry does not place under a source
    directory, whereas a root-level file is under it. *)
Theorem C5_production_outside_source :
  let config := project [] ["."] [] [] in
  normalize Posix.api "/proj/utils/helper.ts" config = "utils/helper.ts"
  /\ FileClassification.isProduction
       (classifyFile Posix.api "/proj/utils/helper.ts" config) = true
  /\ underSourceBySpec "utils/helper.ts" config = false
  /\ normalize Posix.api "/other/x.ts" config = "../other/x.ts"
  /\ FileClassification.isProduction
       (classifyFile Posix.api "/other/x.ts" config) = true
  /\ underSourceBySpec "../other/x.ts" config = false
  /\ underSourceBySpec "index.ts" config = true.
Proof. vm_compute. repeat split. Qed.

(** C6: a file whose normalized root-relative path is [buildDir/rest] (or
    [./buildDir/rest]) for a configured build directory is classified as
    build output and as nothing else, whatever its name. *)
Theorem C6_build_directory_first (path : PathApi) (filePath : string)
  (config : ProjectConfig) (buildDir rest : string) :
  In buildDir (buildDirs config) ->
  normalize path filePath config = buildDir +:+ "/" +:+ rest
  \/ normalize path filePath config = "./" +:+ buildDir +:+ "/" +:+ rest ->
  classifyFile path filePath config =
    {| FileClassification.isProduction := false;
       FileClassification.isTest := false;
       FileClassification.isBuild := true;
       FileClassification.isConfig := false;
       FileClassification.reason := "File is in build directory" |}.
Proof.
  intros Hin Hunder. unfold classifyFile.
  assert (Hb : isInBuildDir (normalize path filePath config) config = true).
  { apply existsb_In_true with buildDir; [exact Hin|].
    unfold startsWithDir. apply orb_true_iff.
    destruct Hunder as [-> | ->].
    - left. replace (buildDir +:+ "/" +:+ rest)
        with ((buildDir +:+ "/") +:+ rest).
      + apply startsWith_app.
      + apply append_assoc.
    - right. replace ("./" +:+ buildDir +:+ "/" +:+ rest)
        with (("./" +:+ buildDir +:+ "/") +:+ rest).
      + apply startsWith_app.
      + simpl. do 2 f_equal. apply append_assoc. }
  rewrite Hb. reflexivity.
Qed.

Lemma C6_build_directory_first_witness :
  FileClassification.isBuild
    (classifyFile Posix.api "/proj/dist/app.test.ts"
       (project [] ["src"] ["test"] ["dist"])) = true
  /\ FileClassification.isTest
    (classifyFile Posix.api "/proj/dist/app.test.ts"
       (project [] ["src"] ["test"] ["dist"])) = false
  /\ isTestFile "app.test.ts" = true.
Proof.
  rewrite (C6_build_directory_first Posix.api "/proj/dist/app.test.ts"
             (project [] ["src"] ["test"] ["dist"]) "dist" "app.test.ts").
  - repeat split.
  - simpl. auto.
  - left. reflexivity.
Defined.

(** ** Package-name resolution *)

Section Splitting.

Variable sep : ascii.

Lemma split_head (s : string) :
  Js_array.nth (Js.split sep s) 0 = before sep s.
Proof.
  induction s as [|c s IH]; simpl; [reflexivity|].
  destruct (Ascii.eqb c sep); [reflexivity|].
  destruct (Js.split sep s) as [|p ps] eqn:E.
  - now apply split_nonempty in E.
  - unfold Js_array.nth in *. simpl in *. now rewrite IH.
Qed.

Lemma split_lacking (s : string) : lacks sep s = true -> Js.split sep s = [s].
Proof.
  induction s as [|c s IH]; simpl; [reflexivity|].
  intros H. apply andb_true_iff in H as [Hc Hs].
  apply negb_true_iff in Hc. rewrite Hc, (IH Hs). reflexivity.
Qed.

Lemma split_parts_lack_sep (s : string) :
  Forall (fun p => lacks sep p = true) (Js.split sep s).
Proof.
  induction s as [|c s IH]; simpl.
  - repeat constructor.
  - destruct (Ascii.eqb c sep) eqn:E.
    + constructor; [reflexivity|exact IH].
    + destruct (Js.split sep s) as [|p ps]; simpl.
      * repeat constructor. simpl. now rewrite E.
      * inversion IH; subst. constructor; [|assumption].
        simpl. now rewrite E.
Qed.

Lemma split_parts_lack (c : ascii) (s : string) :
  lacks c s = true -> Forall (fun p => lacks c p = true) (Js.split sep s).
Proof.
  induction s as [|d s IH]; simpl; intros H.
  - repeat constructor.
  - apply andb_true_iff in H as [Hd Hs]. specialize (IH Hs).
    destruct (Ascii.eqb d sep).
    + constructor; [reflexivity|exact IH].
    + destruct (Js.split sep s) as [|p ps]; simpl.
      * repeat constructor. simpl. now rewrite Hd.
      * inversion IH; subst. constructor; [|assumption].
        simpl. now rewrite Hd.
Qed.

Lemma split_app_sep (p q : string) :
  lacks sep p = true ->
  Js.split sep (p +:+ String sep q) = p :: Js.split sep q.
Proof.
  induction p as [|c p IH]; simpl; intros H.
  - now rewrite Ascii.eqb_refl.
  - apply andb_true_iff in H as [Hc Hp]. apply negb_true_iff in Hc.
    rewrite Hc, (IH Hp). reflexivity.
Qed.

Lemma before_lacks (s : string) : lacks sep (before sep s) = true.
Proof.
  induction s as [|c s IH]; simpl; [reflexivity|].
  destruct (Ascii.eqb c sep) eqn:E; simpl; [reflexivity|].
  now rewrite E.
Qed.

Lemma before_keeps_lacks (c : ascii) (s : string) :
  lacks c s = true -> lacks c (before sep s) = true.
Proof.
  induction s as [|d s IH]; simpl; [reflexivity|]. intros H.
  apply andb_true_iff in H as [Hd Hs].
  destruct (Ascii.eqb d sep); simpl; [reflexivity|].
  now rewrite Hd, IH.
Qed.

Lemma before_lacking (s : string) : lacks sep s = true -> before sep s = s.
Proof.
  induction s as [|c s IH]; simpl; [reflexivity|]. intros H.
  apply andb_true_iff in H as [Hc Hs]. apply negb_true_iff in Hc.
  now rewrite Hc, IH.
Qed.

Lemma before_startsWith_at (s : string) :
  Ascii.eqb "@"%char sep = false ->
  Js.startsWith (before sep s) "@" = Js.startsWith s "@".
Proof.
  intros Hsep. destruct s as [|c s]; simpl; [reflexivity|].
  destruct (Ascii.eqb c sep) eqn:E; simpl; [|reflexivity].
  apply Ascii.eqb_eq in E. subst c. now rewrite Hsep.
Qed.

End Splitting.

Lemma lacks_app (c : ascii) (a b : string) :
  lacks c (a +:+ b) = lacks c a && lacks c b.
Proof.
  induction a as [|d a IH]; simpl; [reflexivity|].
  now rewrite IH, andb_assoc.
Qed.

Lemma startsWith_at_app (a b : string) :
  Js.startsWith a "@" = true -> Js.startsWith (a +:+ b) "@" = true.
Proof. destruct a as [|c a]; simpl; [discriminate|auto]. Qed.

(** The cleaned source is the source cut at its first [?] or [#]. *)
Lemma cleanSource_strip (source : string) :
  Js_array.nth (Js.split "#" (Js_array.nth (Js.split "?" source) 0)) 0
  = stripQueryAndFragment source.
Proof.
  rewrite !split_head.
  induction source as [|c s IH]; simpl; [reflexivity|].
  destruct (Ascii.eqb c "?"); simpl; [reflexivity|].
  destruct (Ascii.eqb c "#"); simpl; [reflexivity|].
  now rewrite IH.
Qed.

Lemma strip_lacks (source : string) :
  lacks "?" (stripQueryAndFragment source) = true
  /\ lacks "#" (stripQueryAndFragment source) = true.
Proof.
  induction source as [|c s [IHq IHf]]; simpl; [auto|].
  destruct (Ascii.eqb c "?") eqn:Eq; simpl; [auto|].
  destruct (Ascii.eqb c "#") eqn:Ef; simpl; [auto|].
  now rewrite Eq, Ef, IHq, IHf.
Qed.

Lemma strip_lacking (s : string) :
  lacks "?" s = true -> lacks "#" s = true -> stripQueryAndFragment s = s.
Proof.
  induction s as [|c s IH]; simpl; [reflexivity|]. intros Hq Hf.
  apply andb_true_iff in Hq as [Hq1 Hq2].
  apply andb_true_iff in Hf as [Hf1 Hf2].
  apply negb_true_iff in Hq1, Hf1. rewrite Hq1, Hf1. simpl. now rewrite IH.
Qed.

Lemma strip_startsWith_at (source : string) :
  Js.startsWith (stripQueryAndFragment source) "@" = Js.startsWith source "@".
Proof.
  destruct source as [|c s]; simpl; [reflexivity|].
  destruct (Ascii.eqb c "?") eqn:Eq; simpl.
  - apply Ascii.eqb_eq in Eq. now subst c.
  - destruct (Ascii.eqb c "#") eqn:Ef; simpl; [|reflexivity].
    apply Ascii.eqb_eq in Ef. now subst c.
Qed.

(** [extractPackageName] over the cleaned source. *)
Lemma extractPackageName_unfold (source : string) :
  extractPackageName source =
    let clean := stripQueryAndFragment source in
    match Js.split "/" clean with
    | p0 :: p1 :: _ =>
        if Js.startsWith clean "@" then p0 +:+ "/" +:+ p1 else p0
    | p0 :: _ => p0
    | [] => EmptyString
    end.
Proof.
  unfold extractPackageName. rewrite cleanSource_strip. simpl.
  destruct (Js.split "/" (stripQueryAndFragment source)) as [|p0 [|p1 ps]];
    simpl.
  - now rewrite andb_false_r.
  - now rewrite andb_false_r.
  - rewrite andb_true_r. reflexivity.
Qed.

(** A resolved name is a fixed point of resolution. *)
Lemma extractPackageName_fixed_scoped (p0 p1 : string) :
  Js.startsWith p0 "@" = true ->
  lacks "/" p0 = true -> lacks "/" p1 = true ->
  lacks "?" p0 = true -> lacks "?" p1 = true ->
  lacks "#" p0 = true -> lacks "#" p1 = true ->
  extractPackageName (p0 +:+ "/" +:+ p1) = p0 +:+ "/" +:+ p1.
Proof.
  intros Hat Hs0 Hs1 Hq0 Hq1 Hf0 Hf1.
  rewrite extractPackageName_unfold. cbv zeta.
  rewrite strip_lacking.
  - change (p0 +:+ "/" +:+ p1) with (p0 +:+ String "/" p1).
    rewrite split_app_sep by assumption. rewrite split_lacking by assumption.
    now rewrite startsWith_at_app.
  - rewrite !lacks_app, Hq0. simpl. exact Hq1.
  - rewrite !lacks_app, Hf0. simpl. exact Hf1.
Qed.

Lemma extractPackageName_fixed_plain (p : string) :
  lacks "/" p = true -> lacks "?" p = true -> lacks "#" p = true ->
  extractPackageName p = p.
Proof.
  intros Hs Hq Hf. rewrite extractPackageName_unfold. cbv zeta.
  rewrite strip_lacking by assumption. now rewrite split_lacking.
Qed.

Lemma extractPackageName_idempotent (s : string) :
  extractPackageName (extractPackageName s) = extractPackageName s.
Proof.
  rewrite (extractPackageName_unfold s). cbv zeta.
  destruct (strip_lacks s) as [Hq Hf].
  pose proof (split_parts_lack_sep "/" (stripQueryAndFragment s)) as Hsep.
  pose proof (split_parts_lack "/" "?" _ Hq) as Hpq.
  pose proof (split_parts_lack "/" "#" _ Hf) as Hpf.
  pose proof (split_head "/" (stripQueryAndFragment s)) as Hhead.
  pose proof (before_startsWith_at "/" (stripQueryAndFragment s) eq_refl)
    as Hat.
  destruct (Js.split "/" (stripQueryAndFragment s)) as [|p0 [|p1 ps]].
  - reflexivity.
  - inversion Hsep; inversion Hpq; inversion Hpf; subst.
    now apply extractPackageName_fixed_plain.
  - inversion Hsep as [|? ? ? Hsep']; inversion Hpq as [|? ? ? Hpq'];
      inversion Hpf as [|? ? ? Hpf']; subst.
    inversion Hsep'; inversion Hpq'; inversion Hpf'; subst.
    change (p0 = before "/" (stripQueryAndFragment s)) in Hhead.
    rewrite <- Hhead in Hat. rewrite <- Hat.
    destruct (Js.startsWith p0 "@") eqn:E.
    + now apply extractPackageName_fixed_scoped.
    + now apply extractPackageName_fixed_plain.
Qed.

Lemma extractPackageName_by_spec (s : string) :
  extractPackageName s = packageNameBySpec s.
Proof.
  rewrite extractPackageName_unfold. unfold packageNameBySpec. cbv zeta.
  rewrite strip_startsWith_at.
  pose proof (split_nonempty "/" (stripQueryAndFragment s)) as Hne.
  destruct (Js.split "/" (stripQueryAndFragment s)) as [|p0 [|p1 ps]];
    [congruence| |]; destruct (Js.startsWith s "@"); reflexivity.
Qed.

(** C7: [extractPackageName] computes the name the specification describes
    (query string and fragment stripped; the first two [/]-separated
    segments joined by [/] for a source starting with [@], the first segment
    otherwise); the three named examples evaluate as stated; and resolving a
    resolved name changes nothing, for every source string. *)
Theorem C7_package_name_resolution :
  (forall s, extractPackageName s = packageNameBySpec s)
  /\ extractPackageName "@scope/pkg/sub/path" = "@scope/pkg"
  /\ extractPackageName "@scope/pkg" = "@scope/pkg"
  /\ extractPackageName "pkg/sub" = "pkg"
  /\ (forall s, extractPackageName (extractPackageName s)
                = extractPackageName s).
Proof.
  split; [exact extractPackageName_by_spec|].
  repeat split; try reflexivity.
  exact extractPackageName_idempotent.
Qed.

(** ** The scanner's callback on import declarations *)

Lemma forallb_pointwise {A} (f g : A -> bool) (l : list A) :
  (forall x, f x = g x) -> forallb f l = forallb g l.
Proof.
  intros H. induction l as [|x l IH]; simpl; [reflexivity|].
  now rewrite H, IH.
Qed.

Lemma hasTypeOnlySpecifiers_spec (specifiers : option (list Specifier.t)) :
  hasTypeOnlySpecifiers specifiers =
    match specifiers with
    | Some (spec :: specs) => everySpecifierTypeOnly (Some (spec :: specs))
    | _ => false
    end.
Proof.
  destruct specifiers as [[|spec specs]|]; try reflexivity.
  unfold hasTypeOnlySpecifiers, everySpecifierTypeOnly.
  cbn [default]. apply forallb_pointwise. intros x.
  destruct (isTypeKind (Specifier.importKind x)); [reflexivity|].
  now rewrite andb_false_r.
Qed.

(** C4 as stated fails: the side-effect import [import 'pkg'] has no
    specifier, so every one of its specifiers is type-only, yet the record
    is a runtime one. *)
Lemma C4_side_effect_import_is_runtime :
  ~ (forall (path : PathApi) (file source : string)
       (importKind : option ImportKind)
       (specifiers : option (list Specifier.t)),
       source <> EmptyString -> isExternalPackage path source = true ->
       visit path file (importNode source importKind specifiers) =
         [record source (typeOnlyBySpec importKind specifiers) file
            (importNode source importKind specifiers)]).
Proof.
  intros H.
  specialize (H Posix.api "/proj/src/app.ts" "pkg" (Some KindValue) (Some [])).
  assert (Hne : "pkg" <> EmptyString) by discriminate.
  specialize (H Hne eq_refl). vm_compute in H. discriminate H.
Qed.

(** C4 (amended): an import declaration with an external source pushes one
    record, which is type-only exactly when the declaration is marked
    type-only or it has at least one specifier and every specifier is marked
    type-only; a declaration with one type and one value specifier is
    recorded as a runtime import. *)
Theorem C4_import_declaration_type_only (path : PathApi)
  (file source : string) (importKind : option ImportKind)
  (specifiers : option (list Specifier.t))
  (loc : option Position) (children : list Node) :
  source <> EmptyString ->
  isExternalPackage path source = true ->
  let node :=
    mkNode (ImportDeclaration (Some source) importKind specifiers) loc
      children in
  visit path file node =
    [record source
       (isTypeKind importKind
        || (negb (Nat.eqb (length (default [] specifiers)) 0)
            && everySpecifierTypeOnly specifiers))
       file node]
  /\ (isTypeKind importKind = false ->
      forall before after,
        specifiers = Some (before ++ valueSpecifier :: after) ->
        map ImportInfo.isTypeOnly (visit path file node) = [false]).
Proof.
  intros Hne Hext node.
  assert (Hvisit : visit path file node =
    [record source
       (isTypeKind importKind || hasTypeOnlySpecifiers specifiers) file node]).
  { unfold visit. cbn [nodeShape node].
    apply String.eqb_neq in Hne. rewrite Hne, Hext. reflexivity. }
  rewrite Hvisit, hasTypeOnlySpecifiers_spec. split.
  - destruct specifiers as [[|spec specs]|]; reflexivity.
  - intros Hkind before after ->. rewrite Hkind.
    cbn [map record ImportInfo.isTypeOnly orb].
    destruct (before ++ valueSpecifier :: after) as [|spec specs] eqn:E.
    + reflexivity.
    + rewrite <- E. unfold everySpecifierTypeOnly. cbn [default id].
      rewrite forallb_app.
      cbn [forallb valueSpecifier Specifier.importKind isTypeKind].
      now rewrite andb_false_r.
Qed.

Lemma C4_import_declaration_type_only_witness :
  map ImportInfo.isTypeOnly
    (visit Posix.api "/proj/src/app.ts"
       (importNode "pkg" (Some KindValue)
          (Some [typeSpecifier; valueSpecifier]))) = [false]
  /\ map ImportInfo.isTypeOnly
       (visit Posix.api "/proj/src/app.ts"
          (importNode "pkg" (Some KindValue)
             (Some [typeSpecifier; typeSpecifier]))) = [true].
Proof.
  assert (Hne : "pkg" <> EmptyString) by discriminate.
  split.
  - apply (proj2 (C4_import_declaration_type_only Posix.api
             "/proj/src/app.ts" "pkg"
             (Some KindValue) (Some [typeSpecifier; valueSpecifier])
             (Some {| posLine := 1; posColumn := 0 |}) [] Hne eq_refl)
             eq_refl [typeSpecifier] [] eq_refl).
  - unfold importNode.
    rewrite (proj1 (C4_import_declaration_type_only Posix.api
             "/proj/src/app.ts" "pkg" (Some KindValue)
             (Some [typeSpecifier; typeSpecifier])
             (Some {| posLine := 1; posColumn := 0 |}) [] Hne eq_refl)).
    reflexivity.
Defined.

(** ** Grouping by package name *)

Lemma groupImport_lookup (m : gmap string (list ImportInfo.t))
  (imp : ImportInfo.t) (k : string) :
  groupImport m imp !! k =
    if String.eqb (ImportInfo.packageName imp) k
    then Some (default [] (m !! k) ++ [imp])
    else m !! k.
Proof.
  unfold groupImport.
  destruct (String.eqb_spec (ImportInfo.packageName imp) k) as [->|Hne].
  - rewrite lookup_alter_eq. case_bool_decide as Hs.
    + destruct Hs as [g Hg]. now rewrite Hg.
    + rewrite lookup_insert_eq.
      apply eq_None_not_Some in Hs. now rewrite Hs.
  - rewrite lookup_alter_ne by exact Hne.
    case_bool_decide; [reflexivity|]. now rewrite lookup_insert_ne.
Qed.

Lemma recordsOf_app (k : string) (l1 l2 : list ImportInfo.t) :
  recordsOf k (l1 ++ l2) = recordsOf k l1 ++ recordsOf k l2.
Proof. apply List.filter_app. Qed.

Lemma fold_groupImport_lookup (imports : list ImportInfo.t)
  (m : gmap string (list ImportInfo.t)) (k : string) :
  fold_left groupImport imports m !! k =
    match m !! k with
    | Some g => Some (g ++ recordsOf k imports)
    | None => nonemptyGroup (recordsOf k imports)
    end.
Proof.
  revert m. induction imports as [|imp rest IH]; intros m; simpl.
  - destruct (m !! k); [now rewrite app_nil_r|reflexivity].
  - rewrite IH, groupImport_lookup.
    destruct (String.eqb (ImportInfo.packageName imp) k).
    + destruct (m !! k); simpl; [now rewrite <- app_assoc|reflexivity].
    + reflexivity.
Qed.

Lemma groupImports_lookup (imports : list ImportInfo.t) (k : string) :
  groupImports imports !! k = nonemptyGroup (recordsOf k imports).
Proof.
  unfold groupImports. rewrite fold_groupImport_lookup.
  now rewrite lookup_empty.
Qed.

Lemma nonemptyGroup_default (group : list ImportInfo.t) :
  default [] (nonemptyGroup group) = group.
Proof. now destruct group. Qed.

Lemma groupImports_merge (l1 l2 : list ImportInfo.t) :
  groupImports (l1 ++ l2) = mergeGroups (groupImports l1) (groupImports l2).
Proof.
  apply map_eq. intros k. unfold mergeGroups.
  rewrite lookup_union_with, !groupImports_lookup, recordsOf_app.
  destruct (recordsOf k l1), (recordsOf k l2); simpl;
    try reflexivity. now rewrite app_nil_r.
Qed.

(** ** The loop over a group *)

Section Loop.

Variable path : PathApi.
Variable config : ProjectConfig.

Lemma mergeFlags_assoc (a b c : Flags) :
  mergeFlags (mergeFlags a b) c = mergeFlags a (mergeFlags b c).
Proof.
  unfold mergeFlags. simpl.
  now rewrite <- !orb_assoc, <- andb_assoc.
Qed.

Lemma mergeFlags_comm (a b : Flags) : mergeFlags a b = mergeFlags b a.
Proof.
  unfold mergeFlags. f_equal; solve [apply orb_comm | apply andb_comm].
Qed.

Lemma mergeFlags_initial_l (a : Flags) : mergeFlags initialFlags a = a.
Proof. now destruct a. Qed.

Lemma mergeFlags_initial_r (a : Flags) : mergeFlags a initialFlags = a.
Proof. rewrite mergeFlags_comm. apply mergeFlags_initial_l. Qed.

Lemma classifyImport_merge (f : Flags) (imp : ImportInfo.t) :
  classifyImport path config f imp =
    mergeFlags f (classifyImport path config initialFlags imp).
Proof.
  unfold classifyImport, mergeFlags.
  destruct (classifyFile path (ImportInfo.filePath imp) config)
    as [prod tst bld cfg why]; simpl.
  destruct f as [a b c d e]; simpl.
  destruct prod, (ImportInfo.isTypeOnly imp), tst, cfg, bld; simpl;
    rewrite ?orb_false_r, ?orb_true_r, ?andb_false_r, ?andb_true_r;
    reflexivity.
Qed.

Lemma classifyImports_merge (imports : list ImportInfo.t) (f : Flags) :
  classifyImports path config imports f =
    mergeFlags f (classifyImports path config imports initialFlags).
Proof.
  unfold classifyImports. revert f.
  induction imports as [|imp rest IH]; intros f; simpl.
  - now rewrite mergeFlags_initial_r.
  - rewrite IH, (IH (classifyImport path config initialFlags imp)).
    rewrite (classifyImport_merge f). apply mergeFlags_assoc.
Qed.

Lemma classifyImports_app (l1 l2 : list ImportInfo.t) :
  classifyImports path config (l1 ++ l2) initialFlags =
    mergeFlags (classifyImports path config l1 initialFlags)
               (classifyImports path config l2 initialFlags).
Proof.
  unfold classifyImports at 1. rewrite fold_left_app.
  apply classifyImports_merge.
Qed.

Lemma classifyImports_cons (imp : ImportInfo.t) (rest : list ImportInfo.t) :
  classifyImports path config (imp :: rest) initialFlags =
    mergeFlags (classifyImport path config initialFlags imp)
               (classifyImports path config rest initialFlags).
Proof. apply (classifyImports_app [imp] rest). Qed.

(** What the flags record about a group. *)
Lemma usedInProduction_exists (imports : list ImportInfo.t) :
  usedInProduction (classifyImports path config imports initialFlags)
  = existsb (inProduction path config) imports.
Proof.
  induction imports as [|imp rest IH]; [reflexivity|].
  rewrite classifyImports_cons. simpl. rewrite IH. f_equal.
  unfold classifyImport, inProduction.
  destruct (classifyFile path (ImportInfo.filePath imp) config)
    as [prod tst bld cfg why]; simpl.
  destruct prod, (ImportInfo.isTypeOnly imp), (tst || cfg || bld);
    reflexivity.
Qed.

Lemma hasRuntimeInProduction_exists (imports : list ImportInfo.t) :
  hasRuntimeInProduction (classifyImports path config imports initialFlags)
  = existsb (fun imp => inProduction path config imp
                        && negb (ImportInfo.isTypeOnly imp)) imports.
Proof.
  induction imports as [|imp rest IH]; [reflexivity|].
  rewrite classifyImports_cons. simpl. rewrite IH. f_equal.
  unfold classifyImport, inProduction.
  destruct (classifyFile path (ImportInfo.filePath imp) config)
    as [prod tst bld cfg why]; simpl.
  destruct prod, (ImportInfo.isTypeOnly imp), (tst || cfg || bld);
    reflexivity.
Qed.

Lemma hasTypeOnlyInProduction_exists (imports : list ImportInfo.t) :
  hasTypeOnlyInProduction (classifyImports path config imports initialFlags)
  = existsb (fun imp => inProduction path config imp
                        && ImportInfo.isTypeOnly imp) imports.
Proof.
  induction imports as [|imp rest IH]; [reflexivity|].
  rewrite classifyImports_cons. simpl. rewrite IH. f_equal.
  unfold classifyImport, inProduction.
  destruct (classifyFile path (ImportInfo.filePath imp) config)
    as [prod tst bld cfg why]; simpl.
  destruct prod, (ImportInfo.isTypeOnly imp), (tst || cfg || bld);
    reflexivity.
Qed.

Lemma usedInDev_exists (imports : list ImportInfo.t) :
  usedInDev (classifyImports path config imports initialFlags)
  = existsb (fun imp => negb (inProduction path config imp)
                        && negb (inUnclassified path config imp)) imports.
Proof.
  induction imports as [|imp rest IH]; [reflexivity|].
  rewrite classifyImports_cons. simpl. rewrite IH. f_equal.
  unfold classifyImport, inProduction, inUnclassified.
  destruct (classifyFile path (ImportInfo.filePath imp) config)
    as [prod tst bld cfg why]; simpl.
  destruct prod, (ImportInfo.isTypeOnly imp), tst, cfg, bld; reflexivity.
Qed.

(** [usedInProduction] is set exactly together with one of the two
    production flags. *)
Lemma production_flags (imports : list ImportInfo.t) :
  usedInProduction (classifyImports path config imports initialFlags) =
    hasTypeOnlyInProduction (classifyImports path config imports initialFlags)
    || hasRuntimeInProduction
         (classifyImports path config imports initialFlags).
Proof.
  rewrite usedInProduction_exists, hasTypeOnlyInProduction_exists,
    hasRuntimeInProduction_exists.
  induction imports as [|imp rest IH]; [reflexivity|]. simpl. rewrite IH.
  destruct (inProduction path config imp), (ImportInfo.isTypeOnly imp);
    simpl; rewrite ?orb_true_r; reflexivity.
Qed.

Lemma analyzePackageUsage_nonempty (packageName : string)
  (imports : list ImportInfo.t) :
  imports <> [] ->
  analyzePackageUsage path packageName imports config =
    let f := classifyImports path config imports initialFlags in
    {| PackageUsage.packageName := packageName;
       PackageUsage.imports := imports;
       PackageUsage.usedInProduction := usedInProduction f;
       PackageUsage.usedInDev := usedInDev f;
       PackageUsage.onlyTypeImports := allImportsAreTypeOnly f;
       PackageUsage.canMoveToDevDependencies := fst (decision f);
       PackageUsage.reason := snd (decision f) |}.
Proof.
  intros Hne. unfold analyzePackageUsage.
  destruct imports as [|imp rest]; [congruence|].
  cbn [length Nat.eqb Nat.ltb Nat.leb]. cbv zeta.
  destruct (decision _) as [canMove why]. simpl.
  now rewrite andb_true_r.
Qed.

Lemma analyzePackageUsage_empty (packageName : string) :
  analyzePackageUsage path packageName [] config = notFound packageName.
Proof. reflexivity. Qed.

Lemma analyzePackageUsage_name (packageName : string)
  (imports : list ImportInfo.t) :
  PackageUsage.packageName
    (analyzePackageUsage path packageName imports config) = packageName.
Proof.
  destruct imports as [|imp rest]; [reflexivity|].
  now rewrite analyzePackageUsage_nonempty.
Qed.

Lemma analyzeGroups_grouped (imports : list ImportInfo.t) :
  analyzeGroups path config (groupImports imports) =
    map (fun packageName =>
           analyzePackageUsage path packageName
             (recordsOf packageName imports) config)
        (declaredDependencies config).
Proof.
  unfold analyzeGroups. apply map_ext. intros k.
  now rewrite groupImports_lookup, nonemptyGroup_default.
Qed.

Lemma partition_In (usages : list PackageUsage.t) (n : nat)
  (u : PackageUsage.t) :
  (In u (packagesToMove (partitionUsages usages n)) <->
     In u usages /\ PackageUsage.canMoveToDevDependencies u = true)
  /\ (In u (packagesToKeep (partitionUsages usages n)) <->
     In u usages /\ PackageUsage.canMoveToDevDependencies u = false).
Proof.
  unfold partitionUsages. simpl. rewrite !List.filter_In.
  now rewrite negb_true_iff.
Qed.

(** The verdicts of a run are the verdicts of the declared dependencies,
    each on the records that name it. *)
Lemma verdicts_In (imports : list ImportInfo.t) (u : PackageUsage.t) :
  In u (verdicts (analyzeDependencies path config imports)) <->
  exists packageName, In packageName (declaredDependencies config)
    /\ u = analyzePackageUsage path packageName
             (recordsOf packageName imports) config.
Proof.
  unfold verdicts, analyzeDependencies. rewrite in_app_iff.
  rewrite (proj1 (partition_In _ _ u)), (proj2 (partition_In _ _ u)).
  rewrite analyzeGroups_grouped, in_map_iff. split.
  - intros [[(k & <- & Hk) _]|[(k & <- & Hk) _]]; exists k; auto.
  - intros (k & Hk & ->).
    destruct (PackageUsage.canMoveToDevDependencies
                (analyzePackageUsage path k (recordsOf k imports) config))
      eqn:E; [left|right]; (split; [exists k; auto|reflexivity]).
Qed.

Lemma verdict_of_group (imports : list ImportInfo.t) (u : PackageUsage.t) :
  In u (verdicts (analyzeDependencies path config imports)) ->
  u = analyzePackageUsage path (PackageUsage.packageName u)
        (recordsOf (PackageUsage.packageName u) imports) config.
Proof.
  intros H. apply verdicts_In in H as (k & _ & ->).
  now rewrite analyzePackageUsage_name.
Qed.

Lemma verdict_side (imports : list ImportInfo.t) (u : PackageUsage.t) :
  In u (verdicts (analyzeDependencies path config imports)) ->
  (PackageUsage.canMoveToDevDependencies u = true ->
     In u (packagesToMove (analyzeDependencies path config imports)))
  /\ (PackageUsage.canMoveToDevDependencies u = false ->
     In u (packagesToKeep (analyzeDependencies path config imports))).
Proof.
  unfold verdicts. rewrite in_app_iff. unfold analyzeDependencies.
  rewrite (proj1 (partition_In _ _ u)), (proj2 (partition_In _ _ u)).
  intros [[Hin _]|[Hin _]]; split; intros Hc; split; assumption.
Qed.

End Loop.

(** ** Verdicts *)

Section Verdicts.

Variable path : PathApi.
Variable config : ProjectConfig.

Lemma declared_verdict (imports : list ImportInfo.t) (packageName : string) :
  In packageName (declaredDependencies config) ->
  In (analyzePackageUsage path packageName (recordsOf packageName imports)
        config)
     (verdicts (analyzeDependencies path config imports)).
Proof. intros H. apply verdicts_In. exists packageName. auto. Qed.

Lemma existsb_none {A} (f : A -> bool) (l : list A) :
  (forall x, In x l -> f x = false) -> existsb f l = false.
Proof.
  intros H. induction l as [|x l IH]; [reflexivity|]. simpl.
  rewrite (H x (or_introl eq_refl)), IH; [reflexivity|].
  intros y Hy. apply H. now right.
Qed.

(** A group with a type-only record and no runtime record in production
    files: step b of the decision. *)
Lemma type_only_group_moves (packageName : string)
  (group : list ImportInfo.t) :
  (exists imp, In imp group /\ inProduction path config imp = true
               /\ ImportInfo.isTypeOnly imp = true) ->
  (forall imp, In imp group -> inProduction path config imp = true ->
               ImportInfo.isTypeOnly imp = true) ->
  PackageUsage.canMoveToDevDependencies
    (analyzePackageUsage path packageName group config) = true
  /\ PackageUsage.reason (analyzePackageUsage path packageName group config)
     = "Only type-only imports in production code".
Proof.
  intros (imp & Hin & Hprod & Htype) Hall.
  assert (Hne : group <> []) by (intros ->; destruct Hin).
  rewrite analyzePackageUsage_nonempty by exact Hne. cbv zeta.
  unfold decision. simpl.
  rewrite usedInProduction_exists, hasTypeOnlyInProduction_exists,
    hasRuntimeInProduction_exists.
  rewrite (existsb_In_true _ group imp Hin Hprod).
  rewrite (existsb_In_true _ group imp Hin) by now rewrite Hprod, Htype.
  rewrite existsb_none; [auto|].
  intros x Hx. destruct (inProduction path config x) eqn:E; [|reflexivity].
  now rewrite (Hall x Hx E).
Qed.

(** A group with a runtime record in a production file: step c. *)
Lemma runtime_group_keeps (packageName : string)
  (group : list ImportInfo.t) :
  (exists imp, In imp group /\ inProduction path config imp = true
               /\ ImportInfo.isTypeOnly imp = false) ->
  PackageUsage.canMoveToDevDependencies
    (analyzePackageUsage path packageName group config) = false
  /\ PackageUsage.reason (analyzePackageUsage path packageName group config)
     = "Has runtime imports in production code".
Proof.
  intros (imp & Hin & Hprod & Htype).
  assert (Hne : group <> []) by (intros ->; destruct Hin).
  rewrite analyzePackageUsage_nonempty by exact Hne. cbv zeta.
  unfold decision. simpl.
  rewrite usedInProduction_exists, hasRuntimeInProduction_exists.
  rewrite (existsb_In_true _ group imp Hin Hprod).
  rewrite (existsb_In_true _ group imp Hin) by now rewrite Hprod, Htype.
  simpl. rewrite andb_false_r. auto.
Qed.

(** A record in a file with no flag set leaves the flags as they are. *)
Lemma unclassified_counts_nowhere (f : Flags) (imp : ImportInfo.t) :
  inUnclassified path config imp = true ->
  classifyImport path config f imp = f.
Proof.
  unfold inUnclassified, classifyImport.
  destruct (classifyFile path (ImportInfo.filePath imp) config)
    as [prod tst bld cfg why]; simpl.
  destruct prod, tst, bld, cfg; simpl; try discriminate. reflexivity.
Qed.

Lemma unclassified_group_flags (group : list ImportInfo.t) (f : Flags) :
  (forall imp, In imp group -> inUnclassified path config imp = true) ->
  classifyImports path config group f = f.
Proof.
  unfold classifyImports. revert f.
  induction group as [|imp rest IH]; intros f H; simpl; [reflexivity|].
  rewrite unclassified_counts_nowhere by (apply H; now left).
  apply IH. intros x Hx. apply H. now right.
Qed.

End Verdicts.

(** C2: for a declared dependency, a group holding a type-only record in a
    production file and no runtime record in a production file is moved,
    with the type-only reason; a group holding a runtime record in a
    production file is kept; so inserting one runtime record of the package
    in a production file turns the verdict into keep. *)
Theorem C2_type_only_moves_runtime_keeps (path : PathApi)
  (config : ProjectConfig) (imports : list ImportInfo.t)
  (packageName : string) :
  In packageName (declaredDependencies config) ->
  let verdict l :=
    analyzePackageUsage path packageName (recordsOf packageName l) config in
  ((exists imp, In imp (recordsOf packageName imports)
      /\ inProduction path config imp = true
      /\ ImportInfo.isTypeOnly imp = true) ->
   (forall imp, In imp (recordsOf packageName imports) ->
      inProduction path config imp = true ->
      ImportInfo.isTypeOnly imp = true) ->
   In (verdict imports)
      (packagesToMove (analyzeDependencies path config imports))
   /\ PackageUsage.canMoveToDevDependencies (verdict imports) = true
   /\ PackageUsage.reason (verdict imports)
      = "Only type-only imports in production code")
  /\ ((exists imp, In imp (recordsOf packageName imports)
        /\ inProduction path config imp = true
        /\ ImportInfo.isTypeOnly imp = false) ->
      In (verdict imports)
         (packagesToKeep (analyzeDependencies path config imports))
      /\ PackageUsage.canMoveToDevDependencies (verdict imports) = false)
  /\ (forall (l1 l2 : list ImportInfo.t) (extra : ImportInfo.t),
        imports = l1 ++ l2 ->
        ImportInfo.packageName extra = packageName ->
        inProduction path config extra = true ->
        ImportInfo.isTypeOnly extra = false ->
        In (verdict (l1 ++ extra :: l2))
           (packagesToKeep
              (analyzeDependencies path config (l1 ++ extra :: l2)))
        /\ PackageUsage.canMoveToDevDependencies
             (verdict (l1 ++ extra :: l2)) = false).
Proof.
  intros Hdecl verdict.
  assert (Hkeep : forall l,
    (exists imp, In imp (recordsOf packageName l)
        /\ inProduction path config imp = true
        /\ ImportInfo.isTypeOnly imp = false) ->
    In (verdict l) (packagesToKeep (analyzeDependencies path config l))
    /\ PackageUsage.canMoveToDevDependencies (verdict l) = false).
  { intros l H.
    destruct (runtime_group_keeps path config packageName _ H) as [Hc _].
    split; [|exact Hc].
    apply (verdict_side path config l); [|exact Hc].
    now apply declared_verdict. }
  split; [|split].
  - intros Hsome Hall.
    destruct (type_only_group_moves path config packageName _ Hsome Hall)
      as [Hc Hr].
    split; [|split; assumption].
    apply (verdict_side path config imports); [|exact Hc].
    now apply declared_verdict.
  - apply Hkeep.
  - intros l1 l2 extra _ Hname Hprod Htype. apply Hkeep.
    exists extra. split; [|split; assumption].
    unfold recordsOf. apply List.filter_In. split.
    + apply in_app_iff. right. now left.
    + apply String.eqb_eq. exact Hname.
Qed.

Lemma C2_type_only_moves_runtime_keeps_witness :
  let config := project ["pkg"] ["src"] ["test"] ["dist"] in
  let typeImport := importAt "pkg" true "/proj/src/app.ts" in
  let valueImport := importAt "pkg" false "/proj/src/index.ts" in
  PackageUsage.canMoveToDevDependencies
    (analyzePackageUsage Posix.api "pkg" [typeImport] config) = true
  /\ PackageUsage.canMoveToDevDependencies
       (analyzePackageUsage Posix.api "pkg" [typeImport; valueImport] config)
     = false.
Proof.
  intros config typeImport valueImport.
  assert (Hdecl : In "pkg" (declaredDependencies config)) by (simpl; auto).
  destruct (C2_type_only_moves_runtime_keeps Posix.api config [typeImport]
              "pkg" Hdecl) as (Hmove & _ & Hflip).
  split.
  - apply Hmove.
    + exists typeImport. repeat split. simpl. auto.
    + intros imp [<-|[]] _. reflexivity.
  - apply (Hflip [typeImport] [] valueImport); reflexivity.
Defined.

(** C3: a declared dependency that no record names has no entry in the
    grouping and receives the keep verdict [notFound]: it cannot be moved
    and the reason says it was not found in imports, whatever the layout and
    the other records are. *)
Theorem C3_unreferenced_dependency_kept (path : PathApi)
  (config : ProjectConfig) (imports : list ImportInfo.t)
  (packageName : string) :
  In packageName (declaredDependencies config) ->
  (forall imp, In imp imports -> ImportInfo.packageName imp <> packageName) ->
  groupImports imports !! packageName = None
  /\ In (notFound packageName)
        (packagesToKeep (analyzeDependencies path config imports))
  /\ (forall u, In u (verdicts (analyzeDependencies path config imports)) ->
        PackageUsage.packageName u = packageName -> u = notFound packageName)
  /\ PackageUsage.canMoveToDevDependencies (notFound packageName) = false
  /\ PackageUsage.reason (notFound packageName) =
       "Package not found in imports (may be used in scripts or other ways)".
Proof.
  intros Hdecl Hnone.
  assert (Hempty : recordsOf packageName imports = []).
  { unfold recordsOf. induction imports as [|imp rest IH]; [reflexivity|].
    simpl. destruct (String.eqb_spec (ImportInfo.packageName imp) packageName)
      as [E|_].
    - exfalso. apply (Hnone imp); [now left|exact E].
    - apply IH. intros x Hx. apply Hnone. now right. }
  split; [|split; [|split; [|split; reflexivity]]].
  - now rewrite groupImports_lookup, Hempty.
  - apply (verdict_side path config imports); [|reflexivity].
    rewrite <- (analyzePackageUsage_empty path config packageName), <- Hempty.
    now apply declared_verdict.
  - intros u Hu Hname. rewrite (verdict_of_group path config imports u Hu).
    now rewrite Hname, Hempty.
Qed.

Lemma C3_unreferenced_dependency_kept_witness :
  In (notFound "left-pad")
     (packagesToKeep
        (analyzeDependencies Posix.api
           (project ["lodash"; "left-pad"] ["src"] ["test"] [])
           [importAt "lodash" false "/proj/src/app.ts"])).
Proof.
  apply (C3_unreferenced_dependency_kept Posix.api
           (project ["lodash"; "left-pad"] ["src"] ["test"] [])
           [importAt "lodash" false "/proj/src/app.ts"] "left-pad").
  - simpl. auto.
  - intros imp [<-|[]]. discriminate.
Defined.

(** C8: after the loop [usedInProduction] equals the disjunction of
    [hasTypeOnlyInProduction] and [hasRuntimeInProduction], so the decision
    never takes its last branch: no verdict of [analyzePackageUsage] carries
    the reason of the fallback. *)
Theorem C8_fallback_unreachable (path : PathApi) (config : ProjectConfig)
  (packageName : string) (imports : list ImportInfo.t) :
  let f := classifyImports path config imports initialFlags in
  usedInProduction f = hasTypeOnlyInProduction f || hasRuntimeInProduction f
  /\ decision f =
       (if negb (usedInProduction f) then
          (true, "Only used in dev/test/config files")
        else if negb (hasRuntimeInProduction f) then
          (true, "Only type-only imports in production code")
        else (false, "Has runtime imports in production code"))
  /\ String.eqb
       (PackageUsage.reason
          (analyzePackageUsage path packageName imports config))
       "Used in production code" = false.
Proof.
  intros f. pose proof (production_flags path config imports) as Hinv.
  fold f in Hinv.
  assert (Hdec : decision f =
       (if negb (usedInProduction f) then
          (true, "Only used in dev/test/config files")
        else if negb (hasRuntimeInProduction f) then
          (true, "Only type-only imports in production code")
        else (false, "Has runtime imports in production code"))).
  { unfold decision. rewrite Hinv.
    destruct (hasTypeOnlyInProduction f), (hasRuntimeInProduction f);
      reflexivity. }
  split; [exact Hinv|split; [exact Hdec|]].
  destruct imports as [|imp rest]; [reflexivity|].
  rewrite analyzePackageUsage_nonempty by discriminate. cbv zeta.
  cbn [PackageUsage.reason]. fold f. rewrite Hdec.
  destruct (negb (usedInProduction f)); [reflexivity|].
  destruct (negb (hasRuntimeInProduction f)); reflexivity.
Qed.

(** C9: grouping a concatenation is merging the two groupings key by key,
    so analysing [l1 ++ l2] is analysing the merged groups; the loop over a
    concatenated group merges the flags of its parts, merging is associative
    and commutative, and the flags, verdict and reason of every package are
    the same whichever list comes first. *)
Theorem C9_aggregation_is_compositional (path : PathApi)
  (config : ProjectConfig) (l1 l2 : list ImportInfo.t) :
  groupImports (l1 ++ l2) = mergeGroups (groupImports l1) (groupImports l2)
  /\ analyzeDependencies path config (l1 ++ l2) =
       partitionUsages
         (analyzeGroups path config
            (mergeGroups (groupImports l1) (groupImports l2)))
         (length (declaredDependencies config))
  /\ (forall g1 g2 : list ImportInfo.t,
        classifyImports path config (g1 ++ g2) initialFlags =
          mergeFlags (classifyImports path config g1 initialFlags)
                     (classifyImports path config g2 initialFlags))
  /\ (forall a b c : Flags,
        mergeFlags (mergeFlags a b) c = mergeFlags a (mergeFlags b c))
  /\ (forall a b : Flags, mergeFlags a b = mergeFlags b a)
  /\ map verdictFlags
       (analyzeGroups path config (groupImports (l1 ++ l2)))
     = map verdictFlags
         (analyzeGroups path config (groupImports (l2 ++ l1))).
Proof.
  split; [apply groupImports_merge|].
  split; [unfold analyzeDependencies; now rewrite groupImports_merge|].
  split; [apply classifyImports_app|].
  split; [apply mergeFlags_assoc|].
  split; [apply mergeFlags_comm|].
  rewrite !analyzeGroups_grouped, !map_map. apply map_ext. intros k.
  rewrite !recordsOf_app.
  destruct (recordsOf k l1) as [|i1 r1] eqn:E1.
  - now rewrite app_nil_r.
  - destruct (recordsOf k l2) as [|i2 r2] eqn:E2.
    + now rewrite app_nil_r.
    + rewrite !analyzePackageUsage_nonempty by discriminate. cbv zeta.
      unfold verdictFlags. cbn [PackageUsage.packageName
        PackageUsage.usedInProduction PackageUsage.usedInDev
        PackageUsage.onlyTypeImports PackageUsage.canMoveToDevDependencies
        PackageUsage.reason].
      rewrite (classifyImports_app path config (i1 :: r1) (i2 :: r2)).
      rewrite (classifyImports_app path config (i2 :: r2) (i1 :: r1)).
      now rewrite mergeFlags_comm.
Qed.

(** C10: a record in a file with none of the four flags set changes no
    flag; a declared dependency whose records all lie in such files gets
    [usedInProduction] and [usedInDev] false and is moved with the reason
    "Only used in dev/test/config files". *)
Theorem C10_unclassified_files_yield_move (path : PathApi)
  (config : ProjectConfig) (imports : list ImportInfo.t)
  (packageName : string) :
  In packageName (declaredDependencies config) ->
  recordsOf packageName imports <> [] ->
  (forall imp, In imp (recordsOf packageName imports) ->
     inUnclassified path config imp = true) ->
  let u :=
    analyzePackageUsage path packageName (recordsOf packageName imports)
      config in
  (forall imp f, In imp (recordsOf packageName imports) ->
     classifyImport path config f imp = f)
  /\ In u (packagesToMove (analyzeDependencies path config imports))
  /\ PackageUsage.usedInProduction u = false
  /\ PackageUsage.usedInDev u = false
  /\ PackageUsage.canMoveToDevDependencies u = true
  /\ PackageUsage.reason u = "Only used in dev/test/config files".
Proof.
  intros Hdecl Hne Hall u.
  assert (Hu : u =
    {| PackageUsage.packageName := packageName;
       PackageUsage.imports := recordsOf packageName imports;
       PackageUsage.usedInProduction := false;
       PackageUsage.usedInDev := false;
       PackageUsage.onlyTypeImports := true;
       PackageUsage.canMoveToDevDependencies := true;
       PackageUsage.reason := "Only used in dev/test/config files" |}).
  { unfold u. rewrite analyzePackageUsage_nonempty by exact Hne. cbv zeta.
    now rewrite unclassified_group_flags by exact Hall. }
  split.
  - intros imp f Hin. apply unclassified_counts_nowhere. now apply Hall.
  - split.
    + apply (verdict_side path config imports);
        [now apply declared_verdict|now rewrite Hu].
    + rewrite Hu. repeat split.
Qed.

Lemma C10_unclassified_files_yield_move_witness :
  let config := project ["chalk"] ["src"] ["test"] ["dist"] in
  let imports := [importAt "chalk" false "/proj/scripts/release.ts"] in
  inUnclassified Posix.api config
    (importAt "chalk" false "/proj/scripts/release.ts") = true
  /\ In (analyzePackageUsage Posix.api "chalk" imports config)
        (packagesToMove (analyzeDependencies Posix.api config imports)).
Proof.
  intros config imports. split; [reflexivity|].
  apply (C10_unclassified_files_yield_move Posix.api config imports "chalk").
  - simpl. auto.
  - discriminate.
  - intros imp [<-|[]]. reflexivity.
Defined.


(** * Further properties of the sources *)

(** ** Patterns and substrings *)

Lemma canonicalize_idempotent (c : ascii) :
  Re.canonicalize (Re.canonicalize c) = Re.canonicalize c.
Proof. destruct c as [[] [] [] [] [] [] [] []]; reflexivity. Qed.

Lemma deriv_canonical (c : ascii) (r : Re.regex) :
  Re.deriv true (Re.canonicalize c) r = Re.deriv true c r.
Proof.
  induction r as [| |d|r1 IH1 r2 IH2|r1 IH1 r2 IH2|r1 IH1]; simpl;
    try reflexivity.
  - now rewrite canonicalize_idempotent.
  - now rewrite IH1, IH2.
  - now rewrite IH1, IH2.
  - exact IH1.
Qed.

Lemma whole_upperCase (r : Re.regex) (s : string) :
  Re.whole true r (upperCase s) = Re.whole true r s.
Proof.
  revert r. induction s as [|c s IH]; intros r; simpl; [reflexivity|].
  now rewrite deriv_canonical, IH.
Qed.

Lemma atEnd_app (i : bool) (r : Re.regex) (a b : string) :
  Re.whole i r b = true -> Re.atEnd i r (a +:+ b) = true.
Proof.
  intros H. induction a as [|c a IH]; simpl.
  - destruct b; simpl in *; now rewrite H.
  - rewrite IH. apply orb_true_r.
Qed.

Lemma includes_prefix (s sub : string) :
  Js.startsWith s sub = true -> Js.includes s sub = true.
Proof. intros H. destruct s; simpl; now rewrite H. Qed.

Lemma includes_app (a sub b : string) :
  Js.includes (a +:+ sub +:+ b) sub = true.
Proof.
  induction a as [|c a IH]; simpl.
  - apply includes_prefix, startsWith_app.
  - rewrite IH. apply orb_true_r.
Qed.

Lemma isTestFile_ending (stem ending suffix : string) :
  In suffix testSuffixes -> upperCase ending = upperCase suffix ->
  isTestFile (stem +:+ ending) = true.
Proof.
  intros Hin Hcase. unfold isTestFile. apply orb_true_iff.
  assert (Hsuffix :
    Re.whole true testFilePattern suffix = true
    \/ Re.whole true testMapPattern suffix = true).
  { simpl in Hin.
    repeat (destruct Hin as [<-|Hin]; [vm_compute; auto|]). destruct Hin. }
  destruct Hsuffix as [H|H]; [left|right]; apply atEnd_app;
    now rewrite <- whole_upperCase, Hcase, whole_upperCase.
Qed.

(** ** The classifier, continued *)

(** X1: a classification sets at most one of the four flags. *)
Theorem classification_sets_at_most_one_flag (path : PathApi)
  (filePath : string) (config : ProjectConfig) :
  (flagCount (classifyFile path filePath config) <= 1)%nat.
Proof.
  unfold classifyFile, flagCount.
  destruct (isInBuildDir _ config); simpl; [lia|].
  destruct (isInTestDir _ _ config); simpl; [lia|].
  destruct (isTestFile _); simpl; [lia|].
  destruct (isConfigFile _), (isInSourceDir _ config); simpl; lia.
Qed.

(** X2: outside the build directories, a file whose base name ends in one
    of the test endings, in any letter case, is classified as a test and as
    nothing else, wherever it lies. *)
Theorem test_named_file_is_test (path : PathApi) (filePath : string)
  (config : ProjectConfig) (stem ending suffix : string) :
  In suffix testSuffixes ->
  upperCase ending = upperCase suffix ->
  basename path filePath = stem +:+ ending ->
  isInBuildDir (normalize path filePath config) config = false ->
  FileClassification.isTest (classifyFile path filePath config) = true
  /\ FileClassification.isProduction (classifyFile path filePath config)
     = false
  /\ FileClassification.isBuild (classifyFile path filePath config) = false
  /\ FileClassification.isConfig (classifyFile path filePath config) = false.
Proof.
  intros Hin Hcase Hname Hbuild. unfold classifyFile.
  rewrite Hbuild, Hname, (isTestFile_ending stem ending suffix Hin Hcase).
  rewrite orb_true_r. repeat split.
Qed.

Lemma test_named_file_is_test_witness :
  FileClassification.isTest
    (classifyFile Posix.api "/proj/src/App.Spec.TSX"
       (project [] ["src"] [] ["dist"])) = true.
Proof.
  apply (test_named_file_is_test Posix.api "/proj/src/App.Spec.TSX"
           (project [] ["src"] [] ["dist"]) "App" ".Spec.TSX" ".spec.tsx").
  - simpl. auto 10.
  - reflexivity.
  - reflexivity.
  - reflexivity.
Defined.

(** X3: outside the build directories, a path with a configured test
    directory as one of its segments is classified as a test, also below a
    source directory. *)
Theorem test_directory_segment_is_test (path : PathApi) (filePath : string)
  (config : ProjectConfig) (testDir above below : string) :
  In testDir (testDirs config) ->
  normalize path filePath config
    = above +:+ ("/" +:+ testDir +:+ "/") +:+ below ->
  isInBuildDir (normalize path filePath config) config = false ->
  classifyFile path filePath config =
    {| FileClassification.isProduction := false;
       FileClassification.isTest := true;
       FileClassification.isBuild := false;
       FileClassification.isConfig := false;
       FileClassification.reason := "File is in test directory" |}.
Proof.
  intros Hin Hpath Hbuild. unfold classifyFile. rewrite Hbuild.
  assert (Htest : isInTestDir (normalize path filePath config)
            (dirname path (normalize path filePath config)) config = true).
  { apply existsb_In_true with testDir; [exact Hin|].
    rewrite Hpath, includes_app. reflexivity. }
  rewrite Htest. reflexivity.
Qed.

Lemma test_directory_segment_is_test_witness :
  FileClassification.isTest
    (classifyFile Posix.api "/proj/src/__tests__/helper.ts"
       (project [] ["src"] ["__tests__"] ["dist"])) = true
  /\ isInSourceDir "src/__tests__/helper.ts"
       (project [] ["src"] ["__tests__"] ["dist"]) = true.
Proof.
  rewrite (test_directory_segment_is_test Posix.api
             "/proj/src/__tests__/helper.ts"
             (project [] ["src"] ["__tests__"] ["dist"])
             "__tests__" "src" "helper.ts").
  - split; reflexivity.
  - simpl. auto.
  - reflexivity.
  - reflexivity.
Defined.

(** X4: a file with a configuration file name that is neither build output
    nor a test is never production; it is flagged as configuration exactly
    when it lies outside the source directories, so inside them it gets no
    flag at all. *)
Theorem config_named_file_is_not_production (path : PathApi)
  (filePath : string) (config : ProjectConfig) :
  isConfigFile (basename path filePath) = true ->
  FileClassification.isBuild (classifyFile path filePath config) = false ->
  FileClassification.isTest (classifyFile path filePath config) = false ->
  FileClassification.isProduction (classifyFile path filePath config) = false
  /\ FileClassification.isConfig (classifyFile path filePath config)
     = negb (isInSourceDir (normalize path filePath config) config).
Proof.
  unfold classifyFile. intros Hconfig.
  destruct (isInBuildDir _ config); simpl; [discriminate|].
  destruct (isInTestDir _ _ config); simpl; [discriminate|].
  destruct (isTestFile _); simpl; [discriminate|].
  rewrite Hconfig. destruct (isInSourceDir _ config); simpl; auto.
Qed.

Lemma config_named_file_is_not_production_witness :
  flagCount
    (classifyFile Posix.api "/proj/src/vite.config.ts"
       (project [] ["src"] ["test"] ["dist"])) = 0%nat
  /\ FileClassification.isConfig
       (classifyFile Posix.api "/proj/vite.config.ts"
          (project [] ["src"] ["test"] ["dist"])) = true.
Proof.
  destruct (config_named_file_is_not_production Posix.api
              "/proj/src/vite.config.ts"
              (project [] ["src"] ["test"] ["dist"])
              eq_refl eq_refl eq_refl) as [Hp Hc].
  split.
  - unfold flagCount. rewrite Hp, Hc. reflexivity.
  - apply (config_named_file_is_not_production Posix.api
             "/proj/vite.config.ts" (project [] ["src"] ["test"] ["dist"])
             eq_refl eq_refl eq_refl).
Defined.

(** X5: a file that [shouldAnalyzeFile] accepts is never classified as
    build output, has one of the six extensions, and has neither
    [node_modules/] nor [coverage/] in its path. *)
Theorem analyzed_file_is_not_build (path : PathApi)
  (extname : string -> string) (filePath : string) (config : ProjectConfig) :
  shouldAnalyzeFile path extname filePath config = true ->
  FileClassification.isBuild (classifyFile path filePath config) = false
  /\ In (extname filePath) validExtensions
  /\ Js.includes (normalize path filePath config) "node_modules/" = false
  /\ Js.includes (normalize path filePath config) "coverage/" = false.
Proof.
  unfold shouldAnalyzeFile. intros H.
  destruct (Js.includes _ "node_modules/"); [discriminate|].
  destruct (existsb (startsWithDir _) (buildDirs config)) eqn:Hbuild;
    [discriminate|].
  destruct (Js.includes _ "coverage/"); [discriminate|].
  destruct (existsb (String.eqb (extname filePath)) validExtensions) eqn:Hext;
    [|discriminate].
  repeat split.
  - unfold classifyFile, isInBuildDir. rewrite Hbuild.
    destruct (isInTestDir _ _ config || isTestFile _); [reflexivity|].
    destruct (isConfigFile _ && negb (isInSourceDir _ config)); reflexivity.
  - apply existsb_exists in Hext as (e & He & Heq).
    apply String.eqb_eq in Heq. now subst e.
Qed.

Lemma analyzed_file_is_not_build_witness :
  FileClassification.isBuild
    (classifyFile Posix.api "/proj/src/app.ts"
       (project [] ["src"] ["test"] ["dist"])) = false
  /\ shouldAnalyzeFile Posix.api posixExtname "/proj/dist/app.js"
       (project [] ["src"] ["test"] ["dist"]) = false.
Proof.
  split; [|reflexivity].
  apply (analyzed_file_is_not_build Posix.api posixExtname "/proj/src/app.ts"
           (project [] ["src"] ["test"] ["dist"])).
  reflexivity.
Defined.

(** ** The scanner's callback, continued *)

Ltac peel_character s :=
  destruct s as [|[[] [] [] [] [] [] [] []] s]; try reflexivity.

Lemma visit_import (path : PathApi) (file : string) (source : option string)
  (importKind : option ImportKind) (specifiers : option (list Specifier.t))
  (loc : option Position) (children : list Node) :
  visit path file
    (mkNode (ImportDeclaration source importKind specifiers) loc children) =
    match source with
    | Some s =>
        if negb (String.eqb s EmptyString) && isExternalPackage path s then
          [record s (isTypeKind importKind || hasTypeOnlySpecifiers specifiers)
             file
             (mkNode (ImportDeclaration source importKind specifiers) loc
                children)]
        else []
    | None => []
    end.
Proof.
  unfold visit. cbn [nodeShape]. destruct source as [s|]; [|reflexivity].
  now rewrite !app_nil_r.
Qed.

Lemma visit_call (path : PathApi) (file : string) (callee : option Callee)
  (arguments : list Argument) (loc : option Position)
  (children : list Node) :
  visit path file (mkNode (CallExpression callee arguments) loc children) =
    if recordedCallee callee then
      match externalArgument path arguments with
      | Some source =>
          [record source false file
             (mkNode (CallExpression callee arguments) loc children)]
      | None => []
      end
    else [].
Proof.
  unfold visit. cbn [nodeShape].
  destruct (externalArgument path arguments) as [source|];
    (destruct callee as [[name| |objectName propertyName|]|];
     try reflexivity;
     [ do 8 peel_character name
     | destruct objectName as [objectName|]; [|reflexivity];
       destruct propertyName as [propertyName|];
       do 8 peel_character objectName;
       do 8 peel_character propertyName ]).
Qed.

Lemma traverseAST_preorder (path : PathApi)
  (callback : Node -> list ImportInfo.t) :
  forall node,
    traverseAST node callback = concat (map callback (preorder node)).
Proof.
  fix IH 1. intros [shape loc children].
  cbn [traverseAST preorder map concat]. f_equal.
  revert children. fix IHc 1. intros [|child rest].
  - reflexivity.
  - cbn [map concat]. rewrite map_app, concat_app, <- IH, <- IHc.
    reflexivity.
Qed.

Lemma externalArgument_source (path : PathApi) (arguments : list Argument)
  (source : string) :
  externalArgument path arguments = Some source ->
  isExternalPackage path source = true
  /\ exists rest, arguments = Literal (Some source) :: rest.
Proof.
  destruct arguments as [|[[s|]|] rest]; simpl; try discriminate.
  destruct (isExternalPackage path s) eqn:E; [|discriminate].
  intros [= <-]. eauto.
Qed.

(** Every record of a node is built from an external source string and
    from the node itself. *)
Lemma visit_records (path : PathApi) (file : string) (node : Node)
  (r : ImportInfo.t) :
  In r (visit path file node) ->
  exists source typeOnly,
    r = record source typeOnly file node
    /\ isExternalPackage path source = true
    /\ (typeOnly = true ->
        exists importKind specifiers,
          nodeShape node = ImportDeclaration (Some source) importKind
                             specifiers
          /\ (isTypeKind importKind = true
              \/ hasTypeOnlySpecifiers specifiers = true)).
Proof.
  destruct node as [[source importKind specifiers|callee arguments|] loc
                      children].
  - rewrite visit_import. destruct source as [s|]; [|intros []].
    destruct (negb (String.eqb s "") && isExternalPackage path s) eqn:E;
      [|intros []].
    intros [<-|[]]. apply andb_true_iff in E as [_ E].
    exists s, (isTypeKind importKind || hasTypeOnlySpecifiers specifiers).
    repeat split; [exact E|]. intros H. exists importKind, specifiers.
    split; [reflexivity|]. now apply orb_true_iff.
  - rewrite visit_call. destruct (recordedCallee callee); [|intros []].
    destruct (externalArgument path arguments) as [s|] eqn:E; [|intros []].
    intros [<-|[]]. exists s, false.
    repeat split; [now apply (externalArgument_source path arguments)|].
    discriminate.
  - intros [].
Qed.

(** X6: a source string that starts with [.] or [/], or that [path] calls
    absolute, is never recorded: not as an import declaration and not as
    the argument of a call, whatever the callee is. *)
Theorem non_external_source_is_not_recorded (path : PathApi)
  (file source : string) :
  Js.startsWith source "." = true \/ Js.startsWith source "/" = true
  \/ isAbsolute path source = true ->
  (forall importKind specifiers loc children,
      visit path file
        (mkNode (ImportDeclaration (Some source) importKind specifiers) loc
           children) = [])
  /\ (forall callee rest loc children,
        visit path file
          (mkNode (CallExpression callee (Literal (Some source) :: rest)) loc
             children) = []).
Proof.
  intros H.
  assert (Hext : isExternalPackage path source = false).
  { unfold isExternalPackage.
    destruct H as [-> | [-> | ->]]; simpl; now rewrite ?andb_false_r. }
  split.
  - intros. now rewrite visit_import, Hext, andb_false_r.
  - intros. rewrite visit_call. cbn [externalArgument]. rewrite Hext.
    now destruct (recordedCallee callee).
Qed.

Lemma non_external_source_is_not_recorded_witness :
  visit Posix.api "/proj/src/app.ts"
    (mkNode (CallExpression (Some (CalleeIdentifier "require"))
               [Literal (Some "./util")]) None []) = []
  /\ visit Posix.api "/proj/src/app.ts"
       (mkNode (CallExpression (Some (CalleeIdentifier "require"))
                  [Literal (Some "util")]) None []) <> [].
Proof.
  split.
  - apply (non_external_source_is_not_recorded Posix.api "/proj/src/app.ts"
             "./util"). left. reflexivity.
  - discriminate.
Defined.

(** X7: a node pushes at most one record, so a tree yields at most as many
    records as it has nodes. *)
Theorem at_most_one_record_per_node (path : PathApi) (file : string)
  (ast : Node) :
  Forall (fun node => (length (visit path file node) <= 1)%nat) (preorder ast)
  /\ (length (extractImportsFromAst path ast file)
      <= length (preorder ast))%nat.
Proof.
  assert (Hone : forall node, (length (visit path file node) <= 1)%nat).
  { intros [[source importKind specifiers|callee arguments|] loc children].
    - rewrite visit_import. destruct source as [s|]; simpl; [|lia].
      destruct (negb (String.eqb s "") && isExternalPackage path s);
        simpl; lia.
    - rewrite visit_call. destruct (recordedCallee callee); simpl; [|lia].
      destruct (externalArgument path arguments); simpl; lia.
    - simpl. lia. }
  split.
  - apply List.Forall_forall. intros node _. apply Hone.
  - unfold extractImportsFromAst. rewrite (traverseAST_preorder path).
    induction (preorder ast) as [|node nodes IH]; simpl; [lia|].
    rewrite length_app. specialize (Hone node). lia.
Qed.

(** X8: every record extracted from the tree of a file names that file and
    carries a resolved package name, one that [extractPackageName] maps to
    itself. *)
Theorem extracted_records_name_the_file (path : PathApi) (file : string)
  (ast : Node) :
  Forall
    (fun r => ImportInfo.filePath r = file
              /\ extractPackageName (ImportInfo.packageName r)
                 = ImportInfo.packageName r)
    (extractImportsFromAst path ast file).
Proof.
  unfold extractImportsFromAst. rewrite (traverseAST_preorder path).
  apply List.Forall_forall. intros r Hr.
  apply in_concat in Hr as (rs & Hrs & Hr).
  apply in_map_iff in Hrs as (node & <- & _).
  apply visit_records in Hr as (source & typeOnly & -> & _).
  split; [reflexivity|]. apply extractPackageName_idempotent.
Qed.

(** X9: a type-only record of the callback comes from an import declaration
    that is marked type-only or whose specifiers are; every record the
    callback pushes for a call expression, such as a [require] or
    [require.resolve] call, is a runtime record. *)
Theorem type_only_records_are_import_declarations (path : PathApi)
  (file : string) (node : Node) (r : ImportInfo.t) :
  In r (visit path file node) ->
  (ImportInfo.isTypeOnly r = true ->
   exists source importKind specifiers,
     nodeShape node = ImportDeclaration (Some source) importKind specifiers
     /\ (isTypeKind importKind = true
         \/ hasTypeOnlySpecifiers specifiers = true))
  /\ (forall callee arguments,
        nodeShape node = CallExpression callee arguments ->
        ImportInfo.isTypeOnly r = false).
Proof.
  intros Hr.
  apply visit_records in Hr as (source & typeOnly & -> & _ & Htype).
  cbn [record ImportInfo.isTypeOnly]. split.
  - intros ->. destruct (Htype eq_refl) as (k & specs & Hshape & Hkind).
    exists source, k, specs. auto.
  - intros callee arguments Hshape. destruct typeOnly; [|reflexivity].
    destruct (Htype eq_refl) as (k & specs & Hshape' & _). congruence.
Qed.

Lemma type_only_records_are_import_declarations_witness :
  let file := "/proj/src/app.ts" in
  let requireCall :=
    mkNode (CallExpression (Some (CalleeIdentifier "require"))
              [Literal (Some "pkg")]) None [] in
  let typeImport := importNode "pkg" (Some KindType) (Some [typeSpecifier]) in
  visit Posix.api file requireCall = [record "pkg" false file requireCall]
  /\ Forall (fun r => ImportInfo.isTypeOnly r = false)
       (visit Posix.api file requireCall)
  /\ visit Posix.api file typeImport = [record "pkg" true file typeImport]
  /\ exists source importKind specifiers,
       nodeShape typeImport
       = ImportDeclaration (Some source) importKind specifiers
       /\ (isTypeKind importKind = true
           \/ hasTypeOnlySpecifiers specifiers = true).
Proof.
  intros file requireCall typeImport.
  split; [reflexivity|]. split; [|split; [reflexivity|]].
  - apply List.Forall_forall. intros r Hr.
    apply (proj2 (type_only_records_are_import_declarations Posix.api
                    file requireCall r Hr)
                 (Some (CalleeIdentifier "require")) [Literal (Some "pkg")]
                 eq_refl).
  - apply (proj1 (type_only_records_are_import_declarations Posix.api
                    file typeImport (record "pkg" true file typeImport)
                    (or_introl eq_refl)) eq_refl).
Defined.

(** X10: the empty source string is treated differently by the two kinds of
    reference: an import declaration with the empty source pushes nothing,
    a [require] or [require.resolve] call with the empty string literal
    pushes a record with the empty package name (for a [path] that does not
    call the empty path absolute). *)
Theorem empty_source_is_recorded_for_calls_only (path : PathApi)
  (file : string) (callee : option Callee) (loc : option Position)
  (children : list Node) :
  isAbsolute path EmptyString = false ->
  callee = Some (CalleeIdentifier "require")
  \/ callee = Some (CalleeMember (Some "require") (Some "resolve")) ->
  (forall importKind specifiers,
     visit path file
       (mkNode (ImportDeclaration (Some EmptyString) importKind specifiers)
          loc children) = [])
  /\ map ImportInfo.packageName
       (visit path file
          (mkNode (CallExpression callee [Literal (Some EmptyString)]) loc
             children)) = [EmptyString].
Proof.
  intros Habs Hcallee.
  assert (Hrecorded : recordedCallee callee = true)
    by (destruct Hcallee as [-> | ->]; reflexivity).
  split.
  - intros. now rewrite visit_import.
  - rewrite visit_call, Hrecorded. unfold externalArgument, isExternalPackage.
    rewrite Habs. reflexivity.
Qed.

Lemma empty_source_is_recorded_for_calls_only_witness :
  map ImportInfo.packageName
    (visit Posix.api "/proj/src/app.ts"
       (mkNode (CallExpression (Some (CalleeIdentifier "require"))
                  [Literal (Some EmptyString)]) None [])) = [EmptyString].
Proof.
  apply (empty_source_is_recorded_for_calls_only Posix.api "/proj/src/app.ts"
           (Some (CalleeIdentifier "require")) None [] eq_refl
           (or_introl eq_refl)).
Defined.

(** ** Package-name resolution, continued *)

Lemma strip_cut (c : ascii) (s t : string) :
  c = "?"%char \/ c = "#"%char ->
  stripQueryAndFragment (s +:+ String c t) = stripQueryAndFragment s.
Proof.
  intros Hc. induction s as [|d s IH]; simpl.
  - destruct Hc as [-> | ->]; reflexivity.
  - now rewrite IH.
Qed.

Lemma strip_app_lacking (a b : string) :
  lacks "?" a = true -> lacks "#" a = true ->
  stripQueryAndFragment (a +:+ b) = a +:+ stripQueryAndFragment b.
Proof.
  induction a as [|c a IH]; simpl; [reflexivity|]. intros Hq Hf.
  apply andb_true_iff in Hq as [Hq1 Hq2].
  apply andb_true_iff in Hf as [Hf1 Hf2].
  apply negb_true_iff in Hq1, Hf1. rewrite Hq1, Hf1. simpl.
  now rewrite IH.
Qed.

Lemma extractPackageName_same_clean (s t : string) :
  stripQueryAndFragment s = stripQueryAndFragment t ->
  extractPackageName s = extractPackageName t.
Proof.
  intros H. rewrite !extractPackageName_unfold. cbv zeta. now rewrite H.
Qed.

(** X11: what follows the first [?] or [#] of a source never reaches the
    package name. *)
Theorem query_and_fragment_are_ignored (s t : string) :
  extractPackageName (s +:+ "?" +:+ t) = extractPackageName s
  /\ extractPackageName (s +:+ "#" +:+ t) = extractPackageName s.
Proof.
  split; apply extractPackageName_same_clean;
    [apply (strip_cut "?") | apply (strip_cut "#")]; auto.
Qed.

(** X12: subpaths are stripped: an unscoped name followed by [/] and
    anything resolves to the name, a scope and a name followed by [/] and
    anything resolve to [scope/name]. *)
Theorem subpaths_are_stripped (scope pkg rest : string) :
  lacks "/" scope = true -> lacks "?" scope = true ->
  lacks "#" scope = true ->
  lacks "/" pkg = true -> lacks "?" pkg = true -> lacks "#" pkg = true ->
  (Js.startsWith pkg "@" = false ->
   extractPackageName (pkg +:+ "/" +:+ rest) = pkg)
  /\ (Js.startsWith scope "@" = true ->
      extractPackageName (scope +:+ "/" +:+ pkg +:+ "/" +:+ rest)
      = scope +:+ "/" +:+ pkg).
Proof.
  intros Hs1 Hs2 Hs3 Hp1 Hp2 Hp3. split; intros Hat.
  - rewrite extractPackageName_unfold. cbv zeta.
    rewrite strip_app_lacking by assumption.
    change (stripQueryAndFragment ("/" +:+ rest))
      with (String "/" (stripQueryAndFragment rest)).
    rewrite split_app_sep by assumption.
    pose proof (split_nonempty "/" (stripQueryAndFragment rest)) as Hne.
    destruct (Js.split "/" (stripQueryAndFragment rest)) as [|p1 ps];
      [congruence|].
    destruct pkg as [|c pkg]; [reflexivity|].
    simpl in Hat |- *. now rewrite Hat.
  - rewrite extractPackageName_unfold. cbv zeta.
    rewrite strip_app_lacking by assumption.
    change (stripQueryAndFragment ("/" +:+ pkg +:+ "/" +:+ rest))
      with (String "/" (stripQueryAndFragment (pkg +:+ "/" +:+ rest))).
    rewrite split_app_sep by assumption.
    rewrite strip_app_lacking by assumption.
    change (stripQueryAndFragment ("/" +:+ rest))
      with (String "/" (stripQueryAndFragment rest)).
    rewrite split_app_sep by assumption.
    now rewrite startsWith_at_app.
Qed.

Lemma subpaths_are_stripped_witness :
  extractPackageName "lodash/fp/map" = "lodash"
  /\ extractPackageName "@babel/core/lib/index.js" = "@babel/core".
Proof.
  destruct (subpaths_are_stripped "@babel" "core" "lib/index.js"
              eq_refl eq_refl eq_refl eq_refl eq_refl eq_refl) as [_ Hscoped].
  destruct (subpaths_are_stripped "@babel" "lodash" "fp/map"
              eq_refl eq_refl eq_refl eq_refl eq_refl eq_refl) as [Hplain _].
  split; [apply Hplain|apply Hscoped]; reflexivity.
Defined.

(** X13: a resolved name holds no [?] and no [#]; it has at most two
    [/]-separated segments, and a single one when the source does not start
    with [@]. *)
Theorem resolved_name_shape (s : string) :
  lacks "?" (extractPackageName s) = true
  /\ lacks "#" (extractPackageName s) = true
  /\ (length (Js.split "/" (extractPackageName s)) <= 2)%nat
  /\ (Js.startsWith s "@" = false ->
      lacks "/" (extractPackageName s) = true).
Proof.
  rewrite (extractPackageName_unfold s). cbv zeta.
  destruct (strip_lacks s) as [Hq Hf].
  pose proof (split_parts_lack_sep "/" (stripQueryAndFragment s)) as Hsep.
  pose proof (split_parts_lack "/" "?" _ Hq) as Hpq.
  pose proof (split_parts_lack "/" "#" _ Hf) as Hpf.
  pose proof (split_nonempty "/" (stripQueryAndFragment s)) as Hne.
  rewrite strip_startsWith_at.
  destruct (Js.split "/" (stripQueryAndFragment s)) as [|p0 [|p1 ps]].
  - congruence.
  - inversion Hsep; inversion Hpq; inversion Hpf; subst.
    repeat split; try assumption; [|auto].
    rewrite split_lacking by assumption. simpl. lia.
  - inversion Hsep as [|? ? ? Hsep']; inversion Hpq as [|? ? ? Hpq'];
      inversion Hpf as [|? ? ? Hpf']; subst.
    inversion Hsep'; inversion Hpq'; inversion Hpf'; subst.
    destruct (Js.startsWith s "@").
    + repeat split.
      * rewrite !lacks_app. simpl. now rewrite andb_true_iff.
      * rewrite !lacks_app. simpl. now rewrite andb_true_iff.
      * change (p0 +:+ "/" +:+ p1) with (p0 +:+ String "/" p1).
        rewrite split_app_sep, split_lacking by assumption. simpl. lia.
      * discriminate.
    + repeat split; try assumption; [|auto].
      rewrite split_lacking by assumption. simpl. lia.
Qed.

(** ** The analyzer, continued *)

Lemma filter_partition_length {A} (p : A -> bool) (l : list A) :
  (length (List.filter p l) + length (List.filter (fun x => negb (p x)) l)
   = length l)%nat.
Proof.
  induction l as [|x l IH]; [reflexivity|]. simpl.
  destruct (p x); simpl; lia.
Qed.

Lemma map_filter_map {A B} (f : B -> A) (g : A -> B) (p : B -> bool)
  (l : list A) :
  (forall x, f (g x) = x) ->
  map f (List.filter p (map g l)) = List.filter (fun x => p (g x)) l.
Proof.
  intros H. induction l as [|x l IH]; [reflexivity|]. simpl.
  destruct (p (g x)); simpl; now rewrite ?H, IH.
Qed.

Lemma production_excludes_dev (path : PathApi) (config : ProjectConfig)
  (imp : ImportInfo.t) :
  inProduction path config imp = true -> inDev path config imp = false.
Proof.
  unfold inProduction, inDev, classifyFile.
  destruct (isInBuildDir _ config); simpl; [discriminate|].
  destruct (isInTestDir _ _ config); simpl; [discriminate|].
  destruct (isTestFile _); simpl; [discriminate|].
  destruct (isConfigFile _), (isInSourceDir _ config); simpl;
    try discriminate; reflexivity.
Qed.

Lemma unclassified_spec (path : PathApi) (config : ProjectConfig)
  (imp : ImportInfo.t) :
  inUnclassified path config imp =
    negb (inProduction path config imp) && negb (inDev path config imp).
Proof.
  unfold inUnclassified, inProduction, inDev.
  destruct (classifyFile path (ImportInfo.filePath imp) config)
    as [prod tst bld cfg why]; simpl.
  destruct prod, tst, bld, cfg; reflexivity.
Qed.

Lemma allImportsAreTypeOnly_forall (path : PathApi) (config : ProjectConfig)
  (imports : list ImportInfo.t) :
  allImportsAreTypeOnly (classifyImports path config imports initialFlags)
  = forallb (fun imp => inUnclassified path config imp
                        || ImportInfo.isTypeOnly imp) imports.
Proof.
  induction imports as [|imp rest IH]; [reflexivity|].
  rewrite classifyImports_cons. simpl. rewrite IH. f_equal.
  unfold classifyImport, inUnclassified.
  destruct (classifyFile path (ImportInfo.filePath imp) config)
    as [prod tst bld cfg why]; simpl.
  destruct prod, (ImportInfo.isTypeOnly imp), tst, cfg, bld; reflexivity.
Qed.

(** X14: the two lists of a result split the declared dependencies: the
    counts add up to the number of declared dependencies, every entry of
    [packagesToMove] can move and no entry of [packagesToKeep] can. *)
Theorem result_splits_declared_dependencies (path : PathApi)
  (config : ProjectConfig) (imports : list ImportInfo.t) :
  let r := analyzeDependencies path config imports in
  totalDependencies r = length (declaredDependencies config)
  /\ canMoveCount r = length (packagesToMove r)
  /\ (canMoveCount r + length (packagesToKeep r))%nat = totalDependencies r
  /\ Forall (fun u => PackageUsage.canMoveToDevDependencies u = true)
       (packagesToMove r)
  /\ Forall (fun u => PackageUsage.canMoveToDevDependencies u = false)
       (packagesToKeep r).
Proof.
  intros r. unfold r, analyzeDependencies, partitionUsages.
  cbn [totalDependencies canMoveCount packagesToMove packagesToKeep].
  split; [reflexivity|]. split; [reflexivity|]. split.
  - rewrite filter_partition_length. unfold analyzeGroups.
    apply length_map.
  - split; apply List.Forall_forall; intros u Hu;
      apply List.filter_In in Hu as [_ Hu]; [exact Hu|].
    now apply negb_true_iff.
Qed.

(** X15: both lists keep the order of the manifest: their package names are
    the declared names that can, respectively cannot, move, in declaration
    order. *)
Theorem result_keeps_manifest_order (path : PathApi)
  (config : ProjectConfig) (imports : list ImportInfo.t) :
  let r := analyzeDependencies path config imports in
  let canMove packageName :=
    PackageUsage.canMoveToDevDependencies
      (analyzePackageUsage path packageName (recordsOf packageName imports)
         config) in
  map PackageUsage.packageName (packagesToMove r)
  = List.filter canMove (declaredDependencies config)
  /\ map PackageUsage.packageName (packagesToKeep r)
     = List.filter (fun packageName => negb (canMove packageName))
         (declaredDependencies config).
Proof.
  intros r canMove. unfold r, analyzeDependencies, partitionUsages.
  cbn [packagesToMove packagesToKeep]. rewrite analyzeGroups_grouped.
  split.
  - apply (map_filter_map PackageUsage.packageName
             (fun k => analyzePackageUsage path k (recordsOf k imports) config)
             PackageUsage.canMoveToDevDependencies).
    intros k. apply analyzePackageUsage_name.
  - apply (map_filter_map PackageUsage.packageName
             (fun k => analyzePackageUsage path k (recordsOf k imports) config)
             (fun u => negb (PackageUsage.canMoveToDevDependencies u))).
    intros k. apply analyzePackageUsage_name.
Qed.

(** X16: a package can move exactly when at least one record names it and
    none of its records is a runtime import in a production file. *)
Theorem can_move_characterisation (path : PathApi) (config : ProjectConfig)
  (packageName : string) (group : list ImportInfo.t) :
  PackageUsage.canMoveToDevDependencies
    (analyzePackageUsage path packageName group config)
  = negb (Nat.eqb (length group) 0)
    && negb (existsb (fun imp => inProduction path config imp
                                 && negb (ImportInfo.isTypeOnly imp)) group).
Proof.
  destruct group as [|imp rest]; [reflexivity|].
  rewrite analyzePackageUsage_nonempty by discriminate. cbv zeta.
  cbn [PackageUsage.canMoveToDevDependencies length Nat.eqb negb andb].
  rewrite <- hasRuntimeInProduction_exists. unfold decision.
  rewrite production_flags.
  destruct (hasTypeOnlyInProduction _), (hasRuntimeInProduction _);
    reflexivity.
Qed.

(** X17: the three flags of a verdict, read off the group: used in
    production when some record lies in a production file, used in dev when
    some record lies in a test, configuration or build file, and only type
    imports when the group is not empty and every record outside the
    unflagged files is type-only. *)
Theorem verdict_flags_characterisation (path : PathApi)
  (config : ProjectConfig) (packageName : string)
  (group : list ImportInfo.t) :
  let u := analyzePackageUsage path packageName group config in
  PackageUsage.usedInProduction u = existsb (inProduction path config) group
  /\ PackageUsage.usedInDev u = existsb (inDev path config) group
  /\ PackageUsage.onlyTypeImports u
     = negb (Nat.eqb (length group) 0)
       && forallb (fun imp => inUnclassified path config imp
                              || ImportInfo.isTypeOnly imp) group.
Proof.
  intros u. unfold u. destruct group as [|imp rest]; [repeat split|].
  rewrite analyzePackageUsage_nonempty by discriminate. cbv zeta.
  cbn [PackageUsage.usedInProduction PackageUsage.usedInDev
       PackageUsage.onlyTypeImports length Nat.eqb negb andb].
  split; [apply usedInProduction_exists|]. split.
  - rewrite usedInDev_exists.
    induction (imp :: rest) as [|x l IH]; [reflexivity|]. simpl.
    rewrite IH. f_equal. rewrite unclassified_spec.
    destruct (inProduction path config x) eqn:E; simpl.
    + now rewrite (production_excludes_dev path config x E).
    + now rewrite negb_involutive.
  - apply allImportsAreTypeOnly_forall.
Qed.

(** X18: records that name no declared dependency change nothing: dropping
    them gives the same result. *)
Theorem undeclared_records_are_ignored (path : PathApi)
  (config : ProjectConfig) (imports : list ImportInfo.t) :
  analyzeDependencies path config
    (List.filter (namesDeclared config) imports)
  = analyzeDependencies path config imports.
Proof.
  unfold analyzeDependencies. rewrite !analyzeGroups_grouped. f_equal.
  apply map_ext_in. intros k Hk. f_equal.
  unfold recordsOf. induction imports as [|imp rest IH]; [reflexivity|].
  simpl. destruct (namesDeclared config imp) eqn:E; simpl.
  - now rewrite IH.
  - rewrite IH.
    destruct (String.eqb_spec (ImportInfo.packageName imp) k) as [Heq|];
      [|reflexivity].
    exfalso. unfold namesDeclared in E.
    rewrite (existsb_In_true _ _ k Hk) in E; [discriminate|].
    now apply String.eqb_eq.
Qed.

Lemma recordsOf_Permutation (k : string) (l l' : list ImportInfo.t) :
  Permutation l l' -> Permutation (recordsOf k l) (recordsOf k l').
Proof.
  unfold recordsOf. induction 1 as [|x l l' _ IH|x y l|l l' l'' _ IH1 _ IH2];
    simpl.
  - constructor.
  - destruct (String.eqb (ImportInfo.packageName x) k); [now constructor|].
    exact IH.
  - destruct (String.eqb (ImportInfo.packageName x) k),
      (String.eqb (ImportInfo.packageName y) k);
      try reflexivity. apply perm_swap.
  - now transitivity (List.filter
      (fun imp => String.eqb (ImportInfo.packageName imp) k) l').
Qed.

Lemma classifyImports_Permutation (path : PathApi) (config : ProjectConfig)
  (g g' : list ImportInfo.t) :
  Permutation g g' ->
  classifyImports path config g initialFlags
  = classifyImports path config g' initialFlags.
Proof.
  induction 1 as [|x l l' _ IH|x y l|l l' l'' _ IH1 _ IH2].
  - reflexivity.
  - now rewrite !(classifyImports_cons path config x), IH.
  - rewrite !classifyImports_cons, <- !mergeFlags_assoc.
    f_equal. apply mergeFlags_comm.
  - now rewrite IH1.
Qed.

(** X19: the order in which records arrive does not matter for the
    verdicts: for any rearrangement of the records every package gets the
    same flags, the same decision and the same reason. *)
Theorem verdicts_ignore_record_order (path : PathApi)
  (config : ProjectConfig) (imports imports' : list ImportInfo.t) :
  Permutation imports imports' ->
  map verdictFlags (analyzeGroups path config (groupImports imports))
  = map verdictFlags (analyzeGroups path config (groupImports imports')).
Proof.
  intros Hperm. rewrite !analyzeGroups_grouped, !map_map.
  apply map_ext. intros k.
  pose proof (recordsOf_Permutation k _ _ Hperm) as Hk.
  destruct (recordsOf k imports) as [|i1 r1] eqn:E1.
  - apply Permutation_nil in Hk. now rewrite Hk.
  - destruct (recordsOf k imports') as [|i2 r2] eqn:E2.
    + symmetry in Hk. apply Permutation_nil in Hk. discriminate.
    + rewrite !analyzePackageUsage_nonempty by discriminate. cbv zeta.
      unfold verdictFlags. cbn [PackageUsage.packageName
        PackageUsage.usedInProduction PackageUsage.usedInDev
        PackageUsage.onlyTypeImports PackageUsage.canMoveToDevDependencies
        PackageUsage.reason].
      now rewrite (classifyImports_Permutation path config _ _ Hk).
Qed.

Lemma verdicts_ignore_record_order_witness :
  let config := project ["a"; "b"] ["src"] ["test"] [] in
  let i1 := importAt "a" false "/proj/src/x.ts" in
  let i2 := importAt "b" true "/proj/test/y.ts" in
  let i3 := importAt "a" true "/proj/src/z.ts" in
  map verdictFlags
    (analyzeGroups Posix.api config (groupImports [i1; i2; i3]))
  = map verdictFlags
      (analyzeGroups Posix.api config (groupImports [i3; i2; i1])).
Proof.
  intros config i1 i2 i3.
  apply (verdicts_ignore_record_order Posix.api config).
  change [i1; i2; i3] with ([i1] ++ [i2; i3]).
  change [i3; i2; i1] with (rev ([i1] ++ [i2; i3])).
  apply Permutation_rev.
Defined.

(** X20: a verdict of a result belongs to a declared dependency and lists
    exactly the records that name its package, in the order of the input. *)
Theorem verdict_lists_its_records (path : PathApi) (config : ProjectConfig)
  (imports : list ImportInfo.t) (u : PackageUsage.t) :
  In u (verdicts (analyzeDependencies path config imports)) ->
  In (PackageUsage.packageName u) (declaredDependencies config)
  /\ PackageUsage.imports u = recordsOf (PackageUsage.packageName u) imports
  /\ Forall (fun imp => ImportInfo.packageName imp = PackageUsage.packageName u)
       (PackageUsage.imports u).
Proof.
  intros Hu. apply verdicts_In in Hu as (k & Hk & ->).
  rewrite analyzePackageUsage_name.
  assert (Himports : PackageUsage.imports
            (analyzePackageUsage path k (recordsOf k imports) config)
          = recordsOf k imports).
  { destruct (recordsOf k imports) as [|imp rest] eqn:E; [reflexivity|].
    now rewrite analyzePackageUsage_nonempty. }
  split; [exact Hk|]. split; [exact Himports|].
  rewrite Himports. apply List.Forall_forall. intros imp Himp.
  apply List.filter_In in Himp as [_ Himp]. now apply String.eqb_eq.
Qed.

Lemma verdict_lists_its_records_witness :
  let config := project ["a"] ["src"] ["test"] [] in
  let i1 := importAt "a" false "/proj/src/x.ts" in
  let i2 := importAt "b" true "/proj/test/y.ts" in
  let i3 := importAt "a" true "/proj/src/z.ts" in
  PackageUsage.imports
    (analyzePackageUsage Posix.api "a" [i1; i3] config) = [i1; i3].
Proof.
  intros config i1 i2 i3.
  apply (verdict_lists_its_records Posix.api config [i1; i2; i3]
           (analyzePackageUsage Posix.api "a" [i1; i3] config)).
  apply (declared_verdict Posix.api config [i1; i2; i3] "a").
  simpl. auto.
Defined.

(** ** The detailed reason and the report *)

Lemma append_empty_r (s : string) : s +:+ EmptyString = s.
Proof. induction s as [|c s IH]; simpl; [reflexivity|]. now rewrite IH. Qed.

Lemma string_length_append (a b : string) :
  String.length (a +:+ b) = (String.length a + String.length b)%nat.
Proof. induction a as [|c a IH]; simpl; [reflexivity|]. now rewrite IH. Qed.

Lemma filter_all {A} (l : list A) : List.filter (fun _ => true) l = l.
Proof. induction l as [|x l IH]; simpl; [reflexivity|]. now rewrite IH. Qed.

Lemma join_head (sep p : string) (ps : list string) :
  exists tail, Js.join sep (p :: ps) = p +:+ tail.
Proof.
  destruct ps as [|q qs]; simpl.
  - exists EmptyString. now rewrite append_empty_r.
  - eauto.
Qed.

(** X21: the detailed reason begins with the verdict's reason and equals it
    exactly when the verdict lists no record; for a package used in
    production the count printed after "used in production" is the number
    of all its records, whichever files they lie in. *)
Theorem detailed_reason_extends_reason (usage : PackageUsage.t) :
  Js.startsWith (getDetailedReason usage) (PackageUsage.reason usage) = true
  /\ (getDetailedReason usage = PackageUsage.reason usage
      <-> PackageUsage.imports usage = [])
  /\ (PackageUsage.imports usage <> [] ->
      PackageUsage.usedInProduction usage = true ->
      Js.startsWith (getDetailedReason usage)
        (PackageUsage.reason usage +:+ " - used in production ("
         +:+ showCount (length (PackageUsage.imports usage)) +:+ " imports)")
      = true).
Proof.
  unfold getDetailedReason.
  destruct (PackageUsage.imports usage) as [|imp rest] eqn:E.
  - cbn [length Nat.eqb]. split; [|split].
    + rewrite <- (append_empty_r (PackageUsage.reason usage)) at 1.
      apply startsWith_app.
    + tauto.
    + congruence.
  - cbn [length Nat.eqb]. cbv zeta. split; [apply startsWith_app|]. split.
    + split; [|discriminate]. intros H.
      apply (f_equal String.length) in H.
      rewrite string_length_append, string_length_append in H.
      simpl in H. lia.
    + intros _ ->. rewrite filter_all. cbn [app].
      match goal with
      | |- context [Js.join ", " (?p :: ?ps)] =>
          destruct (join_head ", " p ps) as [tail Htail]
      end.
      rewrite Htail.
      match goal with
      | |- Js.startsWith (?r +:+ " - " +:+ ?p +:+ tail) _ = true =>
          change (Js.startsWith (r +:+ " - " +:+ p +:+ tail)
                    (r +:+ " - " +:+ p) = true);
          replace (r +:+ " - " +:+ p +:+ tail)
            with ((r +:+ " - " +:+ p) +:+ tail)
            by (now rewrite !append_assoc)
      end.
      apply startsWith_app.
Qed.

Lemma detailed_reason_extends_reason_witness :
  Js.startsWith
    (getDetailedReason
       (analyzePackageUsage Posix.api "pkg"
          [importAt "pkg" false "/proj/src/app.ts";
           importAt "pkg" true "/proj/test/app.test.ts";
           importAt "pkg" true "/proj/test/b.test.ts"]
          (project ["pkg"] ["src"] ["test"] [])))
    "Has runtime imports in production code - used in production (3 imports)"
  = true.
Proof.
  apply (proj2 (proj2 (detailed_reason_extends_reason
    (analyzePackageUsage Posix.api "pkg"
       [importAt "pkg" false "/proj/src/app.ts";
        importAt "pkg" true "/proj/test/app.test.ts";
        importAt "pkg" true "/proj/test/b.test.ts"]
       (project ["pkg"] ["src"] ["test"] []))))).
  - discriminate.
  - reflexivity.
Defined.

(** X22: in the object that [generateJsonReport] serializes the summary
    counts add up to the number of dependencies, every package entry's
    type-only and runtime counts add up to its import count, and only the
    entries of [packagesToMove] carry their import locations. *)
Theorem json_report_counts_add_up (path : PathApi) (config : ProjectConfig)
  (imports : list ImportInfo.t) :
  let j := jsonResult (analyzeDependencies path config imports) in
  (summaryCanMoveCount (summary j) + keepCount (summary j))%nat
  = summaryTotalDependencies (summary j)
  /\ summaryTotalDependencies (summary j)
     = length (declaredDependencies config)
  /\ Forall (fun p => (typeOnlyImportCount p + runtimeImportCount p)%nat
                      = importCount p)
       (jsonPackagesToMove j ++ jsonPackagesToKeep j)
  /\ Forall (fun p => exists locations,
               jsonImports p = Some locations
               /\ length locations = importCount p)
       (jsonPackagesToMove j)
  /\ Forall (fun p => jsonImports p = None) (jsonPackagesToKeep j).
Proof.
  intros j. unfold j, jsonResult, analyzeDependencies, partitionUsages.
  cbn [summary jsonPackagesToMove jsonPackagesToKeep summaryCanMoveCount
       keepCount summaryTotalDependencies totalDependencies canMoveCount
       packagesToMove packagesToKeep].
  split; [|split; [reflexivity|split; [|split]]].
  - rewrite filter_partition_length. unfold analyzeGroups. apply length_map.
  - apply List.Forall_app; split; apply List.Forall_forall; intros p Hp;
      apply in_map_iff in Hp as (u & <- & _);
      apply filter_partition_length.
  - apply List.Forall_forall. intros p Hp.
    apply in_map_iff in Hp as (u & <- & _). eexists. split; [reflexivity|].
    apply length_map.
  - apply List.Forall_forall. intros p Hp.
    now apply in_map_iff in Hp as (u & <- & _).
Qed.

(** ** [package-json.ts] *)

(** X23: the detected source directories are never empty and are among
    [src], [lib], [source], [app] and [.]; the root entry [.] is only ever
    detected alone, when none of the four directories exists; when none of
    them exists the answer is [.] if the root holds a source file and [src]
    otherwise; and an existing [source] directory is listed twice. *)
Theorem detected_source_directories (isDirectory : string -> bool)
  (rootFiles : list string) :
  let detected := detectSourceDirs isDirectory rootFiles in
  detected <> []
  /\ Forall (fun dir => In dir ["src"; "lib"; "source"; "app"; "."]) detected
  /\ (In "." detected ->
      detected = ["."]
      /\ Forall (fun dir => isDirectory dir = false)
           ["src"; "lib"; "source"; "app"])
  /\ (Forall (fun dir => isDirectory dir = false)
        ["src"; "lib"; "source"; "app"] ->
      detected = if existsb isRootSourceFile rootFiles then ["."]
                 else ["src"])
  /\ (isDirectory "source" = true ->
      length (List.filter (String.eqb "source") detected) = 2%nat).
Proof.
  intros detected. unfold detected, detectSourceDirs, detectDirs.
  cbn [List.filter].
  destruct (isDirectory "src") eqn:E1, (isDirectory "lib") eqn:E2,
    (isDirectory "source") eqn:E3, (isDirectory "app") eqn:E4;
    cbn [length Nat.eqb Nat.ltb Nat.leb app].
  all: try destruct (existsb isRootSourceFile rootFiles) eqn:E5;
    cbn [length Nat.eqb Nat.ltb Nat.leb app].
  all: (split; [discriminate|]).
  all: (split; [apply List.Forall_forall; intros dir Hd; cbn [In] in *; tauto|]).
  all: (split;
     [intros Hin; cbn [In] in Hin;
      repeat (destruct Hin as [Hin|Hin]; [try discriminate Hin|]);
      try (destruct Hin);
      (split; [reflexivity|repeat constructor; assumption])|]).
  all: (split;
     [intros Hall;
      repeat match goal with
             | H : Forall _ (_ :: _) |- _ => inversion H; clear H; subst
             end; try congruence; try reflexivity|]).
  all: intros Hs; try discriminate Hs; reflexivity.
Qed.

Lemma detected_source_directories_witness :
  detectSourceDirs (fun _ => false) ["index.ts"; "README.md"] = ["."]
  /\ detectSourceDirs (fun _ => false) ["index.test.ts"; "README.md"]
     = ["src"].
Proof.
  destruct (detected_source_directories (fun _ => false)
              ["index.ts"; "README.md"]) as (_ & _ & _ & Hroot & _).
  destruct (detected_source_directories (fun _ => false)
              ["index.test.ts"; "README.md"]) as (_ & _ & _ & Hnone & _).
  split; [apply Hroot|apply Hnone]; repeat constructor.
Defined.

(** ** Moving packages *)

Lemma followed_guard (packageName : string) :
  ~ In packageName objectPrototypeNames ->
  existsb (String.eqb packageName) objectPrototypeNames = false.
Proof.
  intros H. destruct (existsb _ objectPrototypeNames) eqn:E; [|reflexivity].
  apply existsb_exists in E as (x & Hx & Heq).
  apply String.eqb_eq in Heq. now subst x.
Qed.

(** One iteration on a followed name. *)
Lemma movePackage_followed (st : MoveState) (packageName : string) :
  ~ In packageName objectPrototypeNames ->
  movePackage st packageName =
    Some (match stDependencies st !! packageName with
          | Some version =>
              if String.eqb version EmptyString then st
              else
                {| stDependencies := delete packageName (stDependencies st);
                   stDevDependencies :=
                     <[packageName := version]> (stDevDependencies st);
                   stMoved := stMoved st ++ [(packageName, version)] |}
          | None => st
          end).
Proof.
  intros H. unfold movePackage. rewrite (followed_guard _ H).
  destruct (stDependencies st !! packageName) as [version|]; [|reflexivity].
  now destruct (String.eqb version "").
Qed.

Lemma member_cons (k n : string) (rest : list string) :
  existsb (String.eqb k) (n :: rest)
  = String.eqb k n || existsb (String.eqb k) rest.
Proof. reflexivity. Qed.

(** The loop invariant: what the maps and the list hold after the names. *)
Lemma movePackages_spec (packagesToMove : list string) :
  followed packagesToMove ->
  forall st, exists st',
    movePackages st packagesToMove = Some st'
    /\ (forall k,
          stDependencies st' !! k =
            if movable (stDependencies st) packagesToMove k then None
            else stDependencies st !! k)
    /\ (forall k,
          stDevDependencies st' !! k =
            if movable (stDependencies st) packagesToMove k
            then stDependencies st !! k
            else stDevDependencies st !! k)
    /\ exists new,
         stMoved st' = stMoved st ++ new
         /\ List.NoDup (map fst new)
         /\ forall k v,
              In (k, v) new <->
              In k packagesToMove /\ stDependencies st !! k = Some v
              /\ v <> EmptyString.
Proof.
  induction 1 as [|n rest Hn _ IH]; intros st.
  - exists st. split; [reflexivity|]. repeat split.
    exists []. rewrite app_nil_r. split; [reflexivity|].
    split; [constructor|]. intros k v. split; [intros []|intros [[] _]].
  - cbn [movePackages]. rewrite (movePackage_followed st n Hn).
    destruct (stDependencies st !! n) as [version|] eqn:En.
    + destruct (String.eqb_spec version "") as [->|Hversion].
      * destruct (IH st) as (st' & Hrun & Hdeps & Hdev & new & Hnew & Hnd & Hin).
        exists st'. split; [exact Hrun|].
        assert (Hmov : forall k, movable (stDependencies st) (n :: rest) k
                       = movable (stDependencies st) rest k).
        { intros k. unfold movable. rewrite member_cons.
          destruct (String.eqb_spec k n) as [->|_]; [|reflexivity].
          rewrite En. simpl. now rewrite andb_false_r. }
        split; [intros k; now rewrite Hmov|].
        split; [intros k; now rewrite Hmov|].
        exists new. split; [exact Hnew|]. split; [exact Hnd|].
        intros k v. rewrite Hin. split.
        -- intros (Hk & Hv & Hne). repeat split; auto. now right.
        -- intros ([<-|Hk] & Hv & Hne); [|auto]. congruence.
      * destruct (IH {| stDependencies := delete n (stDependencies st);
                        stDevDependencies :=
                          <[n := version]> (stDevDependencies st);
                        stMoved := stMoved st ++ [(n, version)] |})
          as (st' & Hrun & Hdeps & Hdev & new & Hnew & Hnd & Hin).
        cbn [stDependencies stDevDependencies stMoved] in *.
        exists st'. split; [exact Hrun|].
        assert (Hmov : forall k, movable (stDependencies st) (n :: rest) k
                       = if String.eqb k n then true
                         else movable (delete n (stDependencies st)) rest k).
        { intros k. unfold movable. rewrite member_cons.
          destruct (String.eqb_spec k n) as [->|Hk].
          - rewrite En. simpl. now apply String.eqb_neq in Hversion as ->.
          - now rewrite lookup_delete_ne. }
        assert (Hgone : movable (delete n (stDependencies st)) rest n = false).
        { unfold movable. now rewrite lookup_delete_eq, andb_false_r. }
        split; [|split].
        -- intros k. rewrite Hdeps, Hmov.
           destruct (String.eqb_spec k n) as [->|Hk].
           ++ now rewrite Hgone, lookup_delete_eq.
           ++ now rewrite lookup_delete_ne.
        -- intros k. rewrite Hdev, Hmov.
           destruct (String.eqb_spec k n) as [->|Hk].
           ++ now rewrite Hgone, lookup_insert_eq.
           ++ now rewrite lookup_delete_ne, lookup_insert_ne.
        -- exists ((n, version) :: new).
           split; [now rewrite Hnew, <- app_assoc|]. split.
           ++ cbn [map fst]. constructor; [|exact Hnd].
              intros Hmem. apply in_map_iff in Hmem as ([k v] & Hk & Hkv).
              cbn [fst] in Hk. subst k. apply Hin in Hkv as (_ & Hv & _).
              now rewrite lookup_delete_eq in Hv.
           ++ intros k v. cbn [In]. rewrite Hin. split.
              ** intros [[= <- <-]|(Hk & Hv & Hne)].
                 --- repeat split; auto.
                 --- destruct (String.eqb_spec k n) as [->|Hkn].
                     +++ now rewrite lookup_delete_eq in Hv.
                     +++ rewrite lookup_delete_ne in Hv by auto.
                         repeat split; auto.
              ** intros (Hk & Hv & Hne).
                 destruct (String.eqb_spec k n) as [->|Hkn].
                 --- left. congruence.
                 --- right. destruct Hk as [Hk|Hk]; [congruence|].
                     rewrite lookup_delete_ne by auto. auto.
    + destruct (IH st) as (st' & Hrun & Hdeps & Hdev & new & Hnew & Hnd & Hin).
      exists st'. split; [exact Hrun|].
      assert (Hmov : forall k, movable (stDependencies st) (n :: rest) k
                     = movable (stDependencies st) rest k).
      { intros k. unfold movable. rewrite member_cons.
        destruct (String.eqb_spec k n) as [->|_]; [|reflexivity].
        rewrite En. simpl. now rewrite andb_false_r. }
      split; [intros k; now rewrite Hmov|].
      split; [intros k; now rewrite Hmov|].
      exists new. split; [exact Hnew|]. split; [exact Hnd|].
      intros k v. rewrite Hin. split.
      * intros (Hk & Hv & Hne). repeat split; auto. now right.
      * intros ([<-|Hk] & Hv & Hne); [|auto]. congruence.
Qed.

Lemma updated_dependencies_map (m : gmap string string) :
  default ∅ (if Nat.ltb 0 (size m) then Some m else None) = m.
Proof.
  destruct (Nat.ltb_spec 0 (size m)) as [_|Hsize]; [reflexivity|].
  symmetry. apply map_size_empty_iff. lia.
Qed.

(** X24: on names that are no property names of [Object.prototype] the move
    succeeds; a listed package whose version in [dependencies] is a
    non-empty string leaves [dependencies] and enters [devDependencies] with
    that version, replacing an entry it had there; every other entry of the
    two objects, also a listed one with an empty version, stays as it is;
    and the [dependencies] field is removed exactly when no entry is left. *)
Theorem move_relocates_listed_packages (packageJson : PackageJson)
  (packagesToMove : list string) :
  followed packagesToMove ->
  let deps := copyObject (dependencies packageJson) in
  let devDeps := copyObject (devDependencies packageJson) in
  exists result,
    movePackagesToDevDependencies packageJson packagesToMove = Some result
    /\ (forall k,
          default ∅ (updatedDependencies result) !! k =
            if movable deps packagesToMove k then None else deps !! k)
    /\ (forall k,
          updatedDevDependencies result !! k =
            if movable deps packagesToMove k then deps !! k
            else devDeps !! k)
    /\ (updatedDependencies result = None <->
        forall k, deps !! k = None \/ movable deps packagesToMove k = true).
Proof.
  intros Hfollowed deps devDeps.
  destruct (movePackages_spec packagesToMove Hfollowed
              {| stDependencies := deps; stDevDependencies := devDeps;
                 stMoved := [] |})
    as (st & Hrun & Hdeps & Hdev & _).
  cbn [stDependencies stDevDependencies] in Hdeps, Hdev.
  unfold movePackagesToDevDependencies. fold deps devDeps. rewrite Hrun.
  eexists. split; [reflexivity|].
  cbn [updatedDependencies updatedDevDependencies].
  split; [|split].
  - intros k. now rewrite updated_dependencies_map.
  - exact Hdev.
  - destruct (Nat.ltb_spec 0 (size (stDependencies st))) as [Hsize|Hsize].
    + split; [discriminate|]. intros Hall. exfalso.
      assert (Hempty : stDependencies st = ∅).
      { apply map_eq. intros k. rewrite Hdeps, lookup_empty.
        destruct (Hall k) as [Hk| ->]; [|reflexivity].
        now destruct (movable deps packagesToMove k). }
      rewrite Hempty, map_size_empty in Hsize. lia.
    + split; [|reflexivity]. intros _ k.
      assert (Hempty : stDependencies st = ∅)
        by (apply map_size_empty_iff; lia).
      specialize (Hdeps k). rewrite Hempty, lookup_empty in Hdeps.
      destruct (movable deps packagesToMove k); auto.
Qed.

Lemma move_relocates_listed_packages_witness :
  let packageJson :=
    {| name := None; version := None;
       dependencies := Some [("jest", "^29.0.0"); ("lodash", "^4.0.0")];
       devDependencies := Some [("jest", "^28.0.0")];
       peerDependencies := None; optionalDependencies := None |} in
  exists result,
    movePackagesToDevDependencies packageJson ["jest"; "chalk"] = Some result
    /\ updatedDevDependencies result !! "jest" = Some "^29.0.0"
    /\ default ∅ (updatedDependencies result) !! "jest" = None
    /\ default ∅ (updatedDependencies result) !! "lodash" = Some "^4.0.0".
Proof.
  intros packageJson.
  assert (Hfollowed : followed ["jest"; "chalk"]).
  { repeat constructor; intros H; cbn [In objectPrototypeNames] in H;
      repeat (destruct H as [H|H]; [discriminate H|]); exact H. }
  destruct (move_relocates_listed_packages packageJson ["jest"; "chalk"]
              Hfollowed) as (result & Hrun & Hdeps & Hdev & _).
  exists result. split; [exact Hrun|].
  split; [exact (Hdev "jest")|].
  split; [exact (Hdeps "jest")|exact (Hdeps "lodash")].
Defined.

(** X25: on names that are no property names of [Object.prototype], the
    list [moved] names each moved package once, and holds the pair of a
    name and a version exactly when the name is listed and [dependencies]
    has it with that version, a non-empty string; a listed name that
    [dependencies] lacks is skipped. *)
Theorem moved_lists_relocated_packages (packageJson : PackageJson)
  (packagesToMove : list string) :
  followed packagesToMove ->
  exists result,
    movePackagesToDevDependencies packageJson packagesToMove = Some result
    /\ List.NoDup (map fst (moved result))
    /\ forall k v,
         In (k, v) (moved result) <->
         In k packagesToMove
         /\ copyObject (dependencies packageJson) !! k = Some v
         /\ v <> EmptyString.
Proof.
  intros Hfollowed.
  destruct (movePackages_spec packagesToMove Hfollowed
              {| stDependencies := copyObject (dependencies packageJson);
                 stDevDependencies :=
                   copyObject (devDependencies packageJson);
                 stMoved := [] |})
    as (st & Hrun & _ & _ & new & Hnew & Hnd & Hin).
  cbn [stDependencies stMoved app] in Hnew, Hin.
  unfold movePackagesToDevDependencies. rewrite Hrun.
  eexists. split; [reflexivity|]. cbn [moved]. rewrite Hnew. auto.
Qed.

Lemma moved_lists_relocated_packages_witness :
  let packageJson :=
    {| name := None; version := None;
       dependencies := Some [("jest", "^29.0.0"); ("blank", "")];
       devDependencies := None;
       peerDependencies := None; optionalDependencies := None |} in
  exists result,
    movePackagesToDevDependencies packageJson ["jest"; "blank"; "jest"]
    = Some result
    /\ In ("jest", "^29.0.0") (moved result)
    /\ ~ In ("blank", "") (moved result).
Proof.
  intros packageJson.
  assert (Hfollowed : followed ["jest"; "blank"; "jest"]).
  { repeat constructor; intros H; cbn [In objectPrototypeNames] in H;
      repeat (destruct H as [H|H]; [discriminate H|]); exact H. }
  destruct (moved_lists_relocated_packages packageJson
              ["jest"; "blank"; "jest"] Hfollowed)
    as (result & Hrun & _ & Hin).
  exists result. split; [exact Hrun|]. split.
  - apply Hin. repeat split; [now left|discriminate].
  - intros H. apply Hin in H as (_ & _ & H). now apply H.
Defined.

(** X26: on names that are no property names of [Object.prototype], a
    second pass over the same names moves nothing: started from the two
    objects a first pass left, the loop returns them unchanged with an
    empty [moved] list. *)
Theorem second_move_is_a_no_op (packagesToMove : list string)
  (st st' : MoveState) :
  followed packagesToMove ->
  movePackages st packagesToMove = Some st' ->
  movePackages
    {| stDependencies := stDependencies st';
       stDevDependencies := stDevDependencies st'; stMoved := [] |}
    packagesToMove
  = Some {| stDependencies := stDependencies st';
            stDevDependencies := stDevDependencies st'; stMoved := [] |}.
Proof.
  intros Hfollowed Hfirst.
  destruct (movePackages_spec packagesToMove Hfollowed st)
    as (st1 & Hrun1 & Hdeps1 & _).
  rewrite Hfirst in Hrun1. injection Hrun1 as <-.
  assert (Hnone : forall k,
            movable (stDependencies st') packagesToMove k = false).
  { intros k. unfold movable. rewrite Hdeps1.
    destruct (existsb (String.eqb k) packagesToMove) eqn:Hk; [|reflexivity].
    unfold movable. rewrite Hk. cbn [andb].
    destruct (stDependencies st !! k) as [v|] eqn:Ev; [|reflexivity].
    destruct (String.eqb v "") eqn:Evv; cbn [negb]; [|reflexivity].
    now rewrite Evv. }
  destruct (movePackages_spec packagesToMove Hfollowed
              {| stDependencies := stDependencies st';
                 stDevDependencies := stDevDependencies st'; stMoved := [] |})
    as ([deps2 dev2 moved2] & Hrun2 & Hdeps2 & Hdev2 & new & Hnew & _ & Hin).
  cbn [stDependencies stDevDependencies stMoved app] in *.
  rewrite Hrun2. f_equal. f_equal.
  - apply map_eq. intros k. now rewrite Hdeps2, Hnone.
  - apply map_eq. intros k. now rewrite Hdev2, Hnone.
  - subst moved2. destruct new as [|[k v] new]; [reflexivity|]. exfalso.
    destruct (proj1 (Hin k v) (or_introl eq_refl)) as (Hk & Hv & Hne).
    specialize (Hnone k). unfold movable in Hnone. rewrite Hv in Hnone.
    rewrite (existsb_In_true _ _ k Hk (String.eqb_refl k)) in Hnone.
    apply String.eqb_neq in Hne. rewrite Hne in Hnone. discriminate.
Qed.

Lemma second_move_is_a_no_op_witness :
  let first :=
    {| stDependencies := {["lodash" := "^4.0.0"]};
       stDevDependencies := {["jest" := "^29.0.0"]};
       stMoved := [] |} in
  movePackages first ["jest"] = Some first.
Proof.
  intros first.
  assert (Hfollowed : followed ["jest"]).
  { repeat constructor; intros H; cbn [In objectPrototypeNames] in H;
      repeat (destruct H as [H|H]; [discriminate H|]); exact H. }
  assert (Hfirst :
    movePackages
      {| stDependencies := <["jest" := "^29.0.0"]> {["lodash" := "^4.0.0"]};
         stDevDependencies := ∅; stMoved := [] |} ["jest"]
    = Some {| stDependencies := {["lodash" := "^4.0.0"]};
              stDevDependencies := {["jest" := "^29.0.0"]};
              stMoved := [("jest", "^29.0.0")] |}).
  { vm_compute. reflexivity. }
  exact (second_move_is_a_no_op ["jest"] _ _ Hfollowed Hfirst).
Defined.

Lemma copyObject_declared (o : option (list (string * string))) (k : string) :
  In k (map fst (default [] o)) -> exists v, copyObject o !! k = Some v.
Proof.
  unfold copyObject. induction (default [] o) as [|[a b] l IH]; [intros []|].
  cbn [map fst In list_to_map foldr]. intros [->|Hk].
  - exists b. apply lookup_insert_eq.
  - destruct (String.eqb_spec a k) as [->|Hne].
    + exists b. apply lookup_insert_eq.
    + destruct (IH Hk) as [v Hv]. exists v.
      now rewrite lookup_insert_ne.
Qed.

(** X27: applying the fix to the result of an analysis whose movable
    packages are not named like a property of [Object.prototype]: every
    package of [packagesToMove] whose manifest version is a non-empty
    string is moved with that version, and no entry of a package of
    [packagesToKeep] is touched in either of the two returned objects. *)
Theorem fix_follows_the_analysis (path : PathApi) (config : ProjectConfig)
  (imports : list ImportInfo.t) :
  let r := analyzeDependencies path config imports in
  let names := map PackageUsage.packageName (packagesToMove r) in
  let deps := copyObject (dependencies (packageJson config)) in
  let devDeps := copyObject (devDependencies (packageJson config)) in
  followed names ->
  exists result,
    movePackagesToDevDependencies (packageJson config) names = Some result
    /\ (forall u, In u (packagesToMove r) ->
          exists v,
            deps !! PackageUsage.packageName u = Some v
            /\ (v <> EmptyString ->
                In (PackageUsage.packageName u, v) (moved result)
                /\ updatedDevDependencies result
                     !! PackageUsage.packageName u = Some v
                /\ default ∅ (updatedDependencies result)
                     !! PackageUsage.packageName u = None))
    /\ (forall u, In u (packagesToKeep r) ->
          default ∅ (updatedDependencies result)
            !! PackageUsage.packageName u
          = deps !! PackageUsage.packageName u
          /\ updatedDevDependencies result !! PackageUsage.packageName u
             = devDeps !! PackageUsage.packageName u).
Proof.
  intros r names deps devDeps Hfollowed.
  destruct (movePackages_spec names Hfollowed
              {| stDependencies := deps; stDevDependencies := devDeps;
                 stMoved := [] |})
    as (st & Hrun & Hdeps & Hdev & new & Hnew & _ & Hin).
  cbn [stDependencies stDevDependencies stMoved app] in Hdeps, Hdev, Hnew, Hin.
  unfold movePackagesToDevDependencies. fold deps devDeps. rewrite Hrun.
  eexists. split; [reflexivity|].
  cbn [updatedDependencies updatedDevDependencies moved].
  split.
  - intros u Hu.
    assert (Hname : In (PackageUsage.packageName u) names)
      by (apply in_map_iff; eauto).
    assert (Hverdict : In u (verdicts r))
      by (apply in_app_iff; now left).
    apply verdicts_In in Hverdict as (k & Hk & ->).
    rewrite analyzePackageUsage_name in *.
    destruct (copyObject_declared _ k Hk) as [v Hv]. fold deps in Hv.
    exists v. split; [exact Hv|]. intros Hne.
    assert (Hmovable : movable deps names k = true).
    { unfold movable. rewrite Hv.
      rewrite (existsb_In_true _ _ k Hname (String.eqb_refl k)).
      apply String.eqb_neq in Hne. now rewrite Hne. }
    rewrite updated_dependencies_map, Hdeps, Hdev, Hmovable, Hnew.
    repeat split; [|exact Hv]. apply Hin. auto.
  - intros u Hu.
    assert (Hout : existsb (String.eqb (PackageUsage.packageName u)) names
                   = false).
    { destruct (existsb _ names) eqn:E; [|reflexivity]. exfalso.
      apply existsb_exists in E as (k & Hk & Heq).
      apply String.eqb_eq in Heq. subst k.
      apply in_map_iff in Hk as (u' & Hname & Hu').
      assert (Hv : In u (verdicts r)) by (apply in_app_iff; now right).
      assert (Hv' : In u' (verdicts r)) by (apply in_app_iff; now left).
      apply (verdict_of_group path config imports) in Hv, Hv'.
      rewrite Hname in Hv'. rewrite <- Hv in Hv'. subst u'.
      unfold r, analyzeDependencies in Hu, Hu'.
      apply (proj2 (partition_In _ _ u)) in Hu as [_ Hu].
      apply (proj1 (partition_In _ _ u)) in Hu' as [_ Hu'].
      congruence. }
    rewrite updated_dependencies_map, Hdeps, Hdev. unfold movable.
    now rewrite Hout.
Qed.

Lemma fix_follows_the_analysis_witness :
  let config := project ["jest"; "lodash"] ["src"] ["test"] [] in
  let imports :=
    [importAt "jest" false "/proj/test/app.test.ts";
     importAt "lodash" false "/proj/src/app.ts"] in
  exists result,
    movePackagesToDevDependencies (packageJson config) ["jest"] = Some result
    /\ In ("jest", "^1.0.0") (moved result)
    /\ default ∅ (updatedDependencies result) !! "lodash" = Some "^1.0.0".
Proof.
  intros config imports.
  assert (Hfollowed : followed ["jest"]).
  { repeat constructor; intros H; cbn [In objectPrototypeNames] in H;
      repeat (destruct H as [H|H]; [discriminate H|]); exact H. }
  assert (Hmove :
    map PackageUsage.packageName
      (packagesToMove (analyzeDependencies Posix.api config imports))
    = ["jest"]) by (vm_compute; reflexivity).
  destruct (fix_follows_the_analysis Posix.api config imports)
    as (result & Hrun & Hmoved & Hkept);
    [rewrite Hmove; exact Hfollowed|].
  rewrite Hmove in Hrun. exists result. split; [exact Hrun|]. split.
  - destruct (Hmoved (analyzePackageUsage Posix.api "jest"
                        [importAt "jest" false "/proj/test/app.test.ts"]
                        config)) as (v & Hv & Hin).
    + vm_compute. auto.
    + vm_compute in Hv. injection Hv as <-. apply Hin. discriminate.
  - destruct (Hkept (analyzePackageUsage Posix.api "lodash"
                       [importAt "lodash" false "/proj/src/app.ts"]
                       config)) as [Hdeps _].
    + vm_compute. auto.
    + refine (eq_trans Hdeps _). vm_compute. reflexivity.
Defined.
